(** * Drying simulator: the simulation engine of [app_industrial.py]

    A shallow embedding of [run_industrial_simulation], [calculate_kpis]
    and the sensitivity loop of [app_industrial.py], and the properties
    of them that the specification states.

    Numbers.  The program computes on Python [float] and NumPy [float64]
    values.  They are embedded as real numbers: every arithmetic
    operation is the exact one, so rounding, overflow and the infinities
    are not represented.  [np.exp] is [exp]; [x ** y] is [py_pow].  The
    one special value that the program can produce on finite inputs inside
    the embedded fragment, the NaN that pandas returns for the mean or the
    maximum of an empty column, is represented ([NaN] of [npfloat]).

    What the real numbers can and cannot say.  On the documented domain
    of the parameters no operation overflows, and the embedding is
    faithful for equalities of outcomes, for non-strict bounds and for
    comparisons whose margin is far above the rounding error.  It is not
    faithful for a strict comparison of two runs whose inputs are so
    close that binary64 does not separate them: [Binary64] embeds the
    simulation on binary64 numbers and shows two such runs.  Outside the
    documented domain [**] can raise [OverflowError]; the real embedding
    has no such path, so the theorems that promise a result bound the
    parameters.

    Exceptions.  Python's [/] on two Python numbers raises
    [ZeroDivisionError] on a zero divisor; this is [py_div], in the error
    monad [result].  A division whose operands are NumPy scalars does not
    raise (NumPy warns and yields an infinity or NaN); it is [np_div],
    faithful for a non-zero divisor.

    Integers.  [num_lineas] and the loop index are Python integers: [Z]. *)

From Stdlib Require Import Reals Lra Lia ZArith List String DecimalString DecimalZ.
From Stdlib Require Import PrimFloat.
Import ListNotations.

Local Open Scope Z_scope.
Local Open Scope R_scope.

(** ** Python exceptions as an error monad *)

(** [OverflowError] is what [**] raises when the power is too large for
    a float.  No function of the real embedding raises it; it is an
    outcome of the power of [Binary64]. *)
Inductive exception : Type :=
| ZeroDivisionError
| OverflowError.

Inductive result (A : Type) : Type :=
| Ok (a : A)
| Raise (e : exception).

Arguments Ok {A} a.
Arguments Raise {A} e.

Definition bind {A B : Type} (m : result A) (k : A -> result B) : result B :=
  match m with
  | Ok a => k a
  | Raise e => Raise e
  end.

Notation "x <- m ;; k" := (bind m (fun x => k))
  (at level 61, m at next level, right associativity).

(** ** Numbers *)

(** A pandas reduction result: a number, or the NaN of an empty column. *)
Inductive npfloat : Type :=
| Num (r : R)
| NaN.

(** Arithmetic with one NaN operand is NaN. *)
Definition nan_map (f : R -> R) (x : npfloat) : npfloat :=
  match x with
  | Num r => Num (f r)
  | NaN => NaN
  end.

Definition Rgtb (x y : R) : bool :=
  if Rgt_dec x y then true else false.

(** [x > c] on a reduction result: every comparison with NaN is False. *)
Definition nan_gtb (x : npfloat) (c : R) : bool :=
  match x with
  | Num r => Rgtb r c
  | NaN => false
  end.

(** [a / b] on Python numbers. *)
Definition py_div (a b : R) : result R :=
  if Req_dec_T b 0 then Raise ZeroDivisionError else Ok (a / b).

(** [a / b] where an operand is a NumPy scalar: no exception. *)
Definition np_div (a b : R) : R := a / b.

(** [x ** y] for a float exponent [y > 0]: [exp (y * ln x)] on a positive
    base, [0.0] on base zero.  Python raises [OverflowError] when the
    power overflows, and a negative base with a fractional exponent
    gives a complex number: [py_pow] has neither behaviour, and is the
    operation of the program on the documented domain of the parameters,
    where the base lies between 1/3 and 2. *)
Definition py_pow (x y : R) : R :=
  if Rlt_dec 0 x then Rpower x y else 0.

(** [max(0, x)]: the first argument is kept unless the second is strictly
    greater. *)
Definition py_max0 (x : R) : R :=
  if Rgt_dec x 0 then x else 0.

(** [range(n)] *)
Definition range (n : Z) : list Z :=
  map Z.of_nat (seq 0 (Z.to_nat n)).

(** ** Data *)

(** The [params] dictionary; one field per key. *)
Record Params : Type := mkParams {
  peso_humedo : R;
  espesor : R;
  temperatura : R;
  velocidad_aire : R;
  tiempo_residencia : R;
  humedad_aire : R;
  num_lineas : Z
}.

(** The result table: the columns ['Línea'] and ['Humedad Residual (%)']. *)
Record DataFrame : Type := mkDataFrame {
  Linea : list string;
  Humedad_Residual : list R
}.

(** The dictionary returned by [calculate_kpis]. *)
Record KPIs : Type := mkKPIs {
  humedad_promedio : npfloat;
  costo_energetico : R;
  tasa_evaporacion : npfloat;
  riesgo_calidad : string
}.

(** ** run_industrial_simulation *)

Definition DRY_WEIGHT_G : R := 50.0.
Definition BASE_TEMP_C : R := 90.0.
Definition BASE_AIR_SPEED_MS : R := 1.5.

(** [f'Línea {i+1}'] *)
Definition nombre_linea (i : Z) : string :=
  ("Línea " ++ NilEmpty.string_of_int (Z.to_int (i + 1)))%string.

(** The uniformity factor chosen by the [if]/[elif]/[else] of the loop. *)
Definition uniformity_factor (n i : Z) : R :=
  if (Z.eqb i 0 || Z.eqb i (n - 1))%bool then 0.85
  else if (Z.eqb i 1 || Z.eqb i (n - 2))%bool then 0.95
  else 1.0.

(** The rest of the loop body: the value appended for one line. *)
Definition line_humidity (initial_water_mass water_evaporated_base u : R) : R :=
  let water_evaporated_line := water_evaporated_base * u in
  let final_water_mass := initial_water_mass - water_evaporated_line in
  let final_total_mass := final_water_mass + DRY_WEIGHT_G in
  let final_humidity := np_div final_water_mass final_total_mass * 100 in
  py_max0 final_humidity.

(** One iteration of [for i in range(num_lineas)]: the state is
    [humedad_final_list]. *)
Definition line_step (n : Z) (initial_water_mass water_evaporated_base : R)
  (humedad_final_list : list R) (i : Z) : list R :=
  humedad_final_list ++
  [line_humidity initial_water_mass water_evaporated_base (uniformity_factor n i)].

Definition run_industrial_simulation (params : Params) : result DataFrame :=
  let initial_water_mass := peso_humedo params - DRY_WEIGHT_G in
  tq <- py_div (temperatura params) BASE_TEMP_C ;;
  let temp_factor := py_pow tq 1.5 in
  aq <- py_div (velocidad_aire params) BASE_AIR_SPEED_MS ;;
  let airspeed_factor := py_pow aq 0.8 in
  let drying_rate_base := temp_factor * airspeed_factor in
  hq <- py_div (humedad_aire params) 100 ;;
  let rh_factor := 1 - hq in
  let water_evaporated_base :=
    initial_water_mass *
    (1 - exp (-0.05 * tiempo_residencia params * drying_rate_base * rh_factor)) in
  let nombres_lineas := map nombre_linea (range (num_lineas params)) in
  let humedad_final_list :=
    fold_left (line_step (num_lineas params) initial_water_mass water_evaporated_base)
              (range (num_lineas params)) [] in
  Ok {| Linea := nombres_lineas; Humedad_Residual := humedad_final_list |}.

(** ** pandas column reductions *)

Definition series_sum (l : list R) : R := fold_right Rplus 0 l.

(** [Series.mean()]: the sum over the count; NaN on an empty column. *)
Definition series_mean (l : list R) : npfloat :=
  match l with
  | [] => NaN
  | _ :: _ => Num (series_sum l / INR (List.length l))
  end.

(** [Series.max()]: NaN on an empty column. *)
Definition series_max (l : list R) : npfloat :=
  match l with
  | [] => NaN
  | x :: xs => Num (fold_left Rmax xs x)
  end.

(** ** calculate_kpis *)

Definition AIR_DENSITY_KGM3 : R := 1.0.
Definition AIR_SPECIFIC_HEAT_J_KGK : R := 1005.
Definition PRICE_KWH : R := 0.15.

(** [params['velocidad_aire']**3] is the exact cube: on the documented
    domain it cannot overflow, outside it Python can raise
    [OverflowError], which this embedding does not. *)
Definition calculate_kpis (params : Params) (df_results : DataFrame) : result KPIs :=
  let column := Humedad_Residual df_results in
  initial_water_kg <- py_div (peso_humedo params - 50) 1000 ;;
  let final_water_kg_avg :=
    nan_map (fun m => np_div (np_div m 100 * peso_humedo params) 1000)
            (series_mean column) in
  let evaporated_water_kg_per_piece :=
    nan_map (fun f => initial_water_kg - f) final_water_kg_avg in
  q <- py_div 60 (tiempo_residencia params) ;;
  let pieces_per_hour := q * IZR (num_lineas params) in
  let evaporation_rate_kgh :=
    nan_map (fun e => e * pieces_per_hour) evaporated_water_kg_per_piece in
  let dryer_cross_section_m2 := IZR (num_lineas params) * 0.5 in
  let air_flow_m3s := velocidad_aire params * dryer_cross_section_m2 in
  let air_mass_kgs := air_flow_m3s * AIR_DENSITY_KGM3 in
  power_heating_kw <-
    py_div (air_mass_kgs * AIR_SPECIFIC_HEAT_J_KGK * (temperatura params - 25)) 1000 ;;
  let power_fan_kw := 2.5 * (velocidad_aire params ^ 3) * IZR (num_lineas params) in
  let total_power_kw := power_heating_kw + power_fan_kw in
  let energy_cost_per_hour := total_power_kw * PRICE_KWH in
  let risk := "Bajo"%string in
  let risk :=
    if (Rgtb (temperatura params) 160 || nan_gtb (series_max column) 12)%bool
    then "Alto"%string
    else if (Rgtb (temperatura params) 140 || nan_gtb (series_max column) 9)%bool
    then "Medio"%string
    else risk in
  Ok {| humedad_promedio := series_mean column;
        costo_energetico := energy_cost_per_hour;
        tasa_evaporacion := evaporation_rate_kgh;
        riesgo_calidad := risk |}.

(** ** The sensitivity loop *)

(** The values of [variable_options]: the keys that can be swept. *)
Inductive variable_key : Type :=
| key_temperatura
| key_velocidad_aire
| key_tiempo_residencia
| key_peso_humedo.

(** [temp_params = params.copy(); temp_params[key] = val] *)
Definition set_param (key : variable_key) (val : R) (params : Params) : Params :=
  match key with
  | key_temperatura =>
      mkParams (peso_humedo params) (espesor params) val (velocidad_aire params)
               (tiempo_residencia params) (humedad_aire params) (num_lineas params)
  | key_velocidad_aire =>
      mkParams (peso_humedo params) (espesor params) (temperatura params) val
               (tiempo_residencia params) (humedad_aire params) (num_lineas params)
  | key_tiempo_residencia =>
      mkParams (peso_humedo params) (espesor params) (temperatura params)
               (velocidad_aire params) val (humedad_aire params) (num_lineas params)
  | key_peso_humedo =>
      mkParams val (espesor params) (temperatura params) (velocidad_aire params)
               (tiempo_residencia params) (humedad_aire params) (num_lineas params)
  end.




(** ** The simulation on binary64 numbers *)

(** [run_industrial_simulation] once more, on the numbers of the program:
    [+], [-], [*] and [/] are the operations of binary64, rounded to
    nearest.  The two functions of the C library that the program calls
    are parameters: [float_pow] is [**], which returns a float or raises,
    and [np_exp] is [np.exp].  Nothing is assumed of them.  A decimal
    literal stands for the nearest binary64 number, as in Python. *)
Module Binary64.

#[local] Set Warnings "-inexact-float".

Record Params : Type := mkParams {
  peso_humedo : float;
  espesor : float;
  temperatura : float;
  velocidad_aire : float;
  tiempo_residencia : float;
  humedad_aire : float;
  num_lineas : Z
}.

Record DataFrame : Type := mkDataFrame {
  Linea : list string;
  Humedad_Residual : list float
}.

Definition DRY_WEIGHT_G : float := 50.0%float.
Definition BASE_TEMP_C : float := 90.0%float.
Definition BASE_AIR_SPEED_MS : float := 1.5%float.

(** [max(0, x)]: [x] when [x > 0], else the first argument; a NaN is
    not greater than 0. *)
Definition py_max0 (x : float) : float :=
  if (0 <? x)%float then x else 0%float.

Definition uniformity_factor (n i : Z) : float :=
  if (Z.eqb i 0 || Z.eqb i (n - 1))%bool then 0.85%float
  else if (Z.eqb i 1 || Z.eqb i (n - 2))%bool then 0.95%float
  else 1.0%float.

Definition line_humidity (initial_water_mass water_evaporated_base u : float)
  : float :=
  let water_evaporated_line := (water_evaporated_base * u)%float in
  let final_water_mass := (initial_water_mass - water_evaporated_line)%float in
  let final_total_mass := (final_water_mass + DRY_WEIGHT_G)%float in
  let final_humidity := ((final_water_mass / final_total_mass) * 100)%float in
  py_max0 final_humidity.

Definition line_step (n : Z) (initial_water_mass water_evaporated_base : float)
  (humedad_final_list : list float) (i : Z) : list float :=
  humedad_final_list ++
  [line_humidity initial_water_mass water_evaporated_base (uniformity_factor n i)].

Definition run_industrial_simulation
  (float_pow : float -> float -> result float) (np_exp : float -> float)
  (params : Params) : result DataFrame :=
  let initial_water_mass := (peso_humedo params - DRY_WEIGHT_G)%float in
  temp_factor <- float_pow (temperatura params / BASE_TEMP_C)%float 1.5%float ;;
  airspeed_factor <-
    float_pow (velocidad_aire params / BASE_AIR_SPEED_MS)%float 0.8%float ;;
  let drying_rate_base := (temp_factor * airspeed_factor)%float in
  let rh_factor := (1 - (humedad_aire params / 100))%float in
  let water_evaporated_base :=
    (initial_water_mass *
     (1 - np_exp (- (0.05) * tiempo_residencia params
                  * drying_rate_base * rh_factor)))%float in
  let nombres_lineas := map nombre_linea (range (num_lineas params)) in
  let humedad_final_list :=
    fold_left (line_step (num_lineas params) initial_water_mass water_evaporated_base)
              (range (num_lineas params)) [] in
  Ok {| Linea := nombres_lineas; Humedad_Residual := humedad_final_list |}.

Definition between (lo x hi : float) : bool :=
  ((lo <=? x)%float && (x <=? hi)%float)%bool.

(** The documented domains, decided on floats. *)
Definition valid_params (p : Params) : bool :=
  (between 200%float (peso_humedo p) 300%float &&
   between 2%float (espesor p) 5%float &&
   between 80%float (temperatura p) 180%float &&
   between 0.5%float (velocidad_aire p) 3%float &&
   between 5%float (tiempo_residencia p) 20%float &&
   between 10%float (humedad_aire p) 80%float &&
   (2 <=? num_lineas p)%Z && (num_lineas p <=? 12)%Z)%bool.

(** The reference scenario at 100 degrees, and at the next float above
    100: two parameter sets that differ by their temperature alone. *)
Definition at_100 : Params :=
  mkParams 240%float 3%float 100%float 1.5%float 10%float 50%float 6.

Definition above_100 : Params :=
  mkParams 240%float 3%float (next_up 100%float) 1.5%float 10%float 50%float 6.

End Binary64.

(** ** Predicates of the specification *)

(** The documented domains of the parameters (the bounds of the sliders). *)
Definition valid_params (p : Params) : Prop :=
  200 <= peso_humedo p <= 300 /\
  2.0 <= espesor p <= 5.0 /\
  80 <= temperatura p <= 180 /\
  0.5 <= velocidad_aire p <= 3.0 /\
  5 <= tiempo_residencia p <= 20 /\
  10 <= humedad_aire p <= 80 /\
  (2 <= num_lineas p <= 12)%Z.

(** Two parameter sets that agree on every key but ['temperatura']. *)
Definition same_except_temperatura (p q : Params) : Prop :=
  peso_humedo p = peso_humedo q /\
  espesor p = espesor q /\
  velocidad_aire p = velocidad_aire q /\
  tiempo_residencia p = tiempo_residencia q /\
  humedad_aire p = humedad_aire q /\
  num_lineas p = num_lineas q.

(** Two parameter sets that agree on every key but ['espesor']. *)
Definition same_except_espesor (p q : Params) : Prop :=
  peso_humedo p = peso_humedo q /\
  temperatura p = temperatura q /\
  velocidad_aire p = velocidad_aire q /\
  tiempo_residencia p = tiempo_residencia q /\
  humedad_aire p = humedad_aire q /\
  num_lineas p = num_lineas q.

(** The uniformity rule in the words of the specification: three index
    sets, the outermost one first. *)
Definition outermost (n i : Z) : Prop := i = 0%Z \/ i = (n - 1)%Z.
Definition second_from_edge (n i : Z) : Prop := i = 1%Z \/ i = (n - 2)%Z.

Inductive spec_factor (n i : Z) : R -> Prop :=
| factor_outermost : outermost n i -> spec_factor n i 0.85
| factor_second : ~ outermost n i -> second_from_edge n i -> spec_factor n i 0.95
| factor_interior : ~ outermost n i -> ~ second_from_edge n i -> spec_factor n i 1.00.

(** The maximum of a column: one of its values, and no value is above. *)
Definition is_max (m : R) (l : list R) : Prop :=
  In m l /\ Forall (fun h => h <= m) l.

(** "The maximum residual moisture across the lines is above [c]". *)
Definition max_above (c : R) (l : list R) : Prop :=
  exists m, is_max m l /\ m > c.

(** Some line is above [c]. *)
Definition some_above (c : R) (l : list R) : Prop := Exists (fun h => h > c) l.

(** The risk classes in the words of the specification: High, Medium,
    Low are the strings "Alto", "Medio", "Bajo" of the program. *)
Inductive spec_risk (t : R) (l : list R) : string -> Prop :=
| risk_high : t > 160 \/ max_above 12 l -> spec_risk t l "Alto"
| risk_medium : ~ (t > 160 \/ max_above 12 l) -> t > 140 \/ max_above 9 l ->
                spec_risk t l "Medio"
| risk_low : ~ (t > 160 \/ max_above 12 l) -> ~ (t > 140 \/ max_above 9 l) ->
             spec_risk t l "Bajo".

(** The reference scenario of the specification. *)
Definition reference_params : Params :=
  mkParams 240 3.0 135 1.5 10 50 6.

(** ** Closed forms of the simulation *)

(** The argument of [np.exp]. *)
Definition drying_exponent (p : Params) : R :=
  -0.05 * tiempo_residencia p *
  (py_pow (temperatura p / BASE_TEMP_C) 1.5 *
   py_pow (velocidad_aire p / BASE_AIR_SPEED_MS) 0.8) *
  (1 - humedad_aire p / 100).

(** [water_evaporated_base] *)
Definition evaporated_base (p : Params) : R :=
  (peso_humedo p - DRY_WEIGHT_G) * (1 - exp (drying_exponent p)).

(** The humidity of line [i]. *)
Definition humidity_at (p : Params) (i : Z) : R :=
  line_humidity (peso_humedo p - DRY_WEIGHT_G) (evaporated_base p)
                (uniformity_factor (num_lineas p) i).

(** The column ['Humedad Residual (%)'] that the loop builds. *)
Definition humidity_column (p : Params) : list R :=
  map (humidity_at p) (range (num_lineas p)).

(** The table that [run_industrial_simulation] returns. *)
Definition simulation_table (p : Params) : DataFrame :=
  {| Linea := map nombre_linea (range (num_lineas p));
     Humedad_Residual := humidity_column p |}.

(** The branch that [calculate_kpis] takes for the risk. *)
Definition risk_of (t : R) (column : list R) : string :=
  if (Rgtb t 160 || nan_gtb (series_max column) 12)%bool then "Alto"%string
  else if (Rgtb t 140 || nan_gtb (series_max column) 9)%bool then "Medio"%string
  else "Bajo"%string.


(** ** Inputs outside the documented domain *)

(** The documented domains of the process and equipment parameters, the
    product fields left free. *)
Definition valid_process (p : Params) : Prop :=
  80 <= temperatura p <= 180 /\
  0.5 <= velocidad_aire p <= 3.0 /\
  5 <= tiempo_residencia p <= 20 /\
  10 <= humedad_aire p <= 80 /\
  (2 <= num_lineas p <= 12)%Z.

(** The reference scenario with a wet weight equal to the dry weight. *)
Definition dry_params : Params :=
  mkParams 50 3.0 135 1.5 10 50 6.

(** The reference scenario with a residence time of zero. *)
Definition zero_time_params : Params :=
  mkParams 240 3.0 135 1.5 0 50 6.

(** A table without lines. *)
Definition empty_table : DataFrame :=
  {| Linea := []; Humedad_Residual := [] |}.

(** ** Further notions *)

(** The wet-basis moisture of the product before drying, in percent. *)
Definition initial_humidity (p : Params) : R :=
  (peso_humedo p - DRY_WEIGHT_G) / (peso_humedo p - DRY_WEIGHT_G + DRY_WEIGHT_G) * 100.



Definition slider_step (key : variable_key) : R :=
  match key with
  | key_peso_humedo => 5
  | key_temperatura => 5
  | key_velocidad_aire => 0.1
  | key_tiempo_residencia => 1
  end.

(** The step of the slider of ['humedad_aire']. *)
Definition humedad_aire_step : R := 5.

(** The documented domains of every parameter but the residence time. *)
Definition valid_except_tiempo (p : Params) : Prop :=
  200 <= peso_humedo p <= 300 /\
  80 <= temperatura p <= 180 /\
  0.5 <= velocidad_aire p <= 3.0 /\
  10 <= humedad_aire p <= 80 /\
  (2 <= num_lineas p <= 12)%Z.

(** The documented domains of every parameter but the number of lines. *)
Definition valid_except_lineas (p : Params) : Prop :=
  200 <= peso_humedo p <= 300 /\
  80 <= temperatura p <= 180 /\
  0.5 <= velocidad_aire p <= 3.0 /\
  5 <= tiempo_residencia p <= 20 /\
  10 <= humedad_aire p <= 80.

(** The documented domains of the wet weight, the temperature, the air
    speed and the number of lines; the residence time may go down to 0
    and the humidity of the air up to 100 %. *)
Definition valid_or_no_drying (p : Params) : Prop :=
  200 <= peso_humedo p <= 300 /\
  80 <= temperatura p <= 180 /\
  0.5 <= velocidad_aire p <= 3.0 /\
  0 <= tiempo_residencia p <= 20 /\
  10 <= humedad_aire p <= 100 /\
  (2 <= num_lineas p <= 12)%Z.


(** Two parameter sets that agree on every key but ['humedad_aire']. *)
Definition same_except_humedad_aire (p q : Params) : Prop :=
  peso_humedo p = peso_humedo q /\
  espesor p = espesor q /\
  temperatura p = temperatura q /\
  velocidad_aire p = velocidad_aire q /\
  tiempo_residencia p = tiempo_residencia q /\
  num_lineas p = num_lineas q.

(** The two calls of the script: the simulation, then the indicators of
    its table. *)
Definition pipeline (params : Params) : result (DataFrame * KPIs) :=
  df_results <- run_industrial_simulation params ;;
  kpis <- calculate_kpis params df_results ;;
  Ok (df_results, kpis).

(** * Properties *)

(** ** Arithmetic of the embedding *)

Lemma py_div_ok (a b : R) : b <> 0 -> py_div a b = Ok (a / b).
Proof.
  intros Hb. unfold py_div.
  destruct (Req_dec_T b 0) as [E | _]; [contradiction | reflexivity].
Qed.

Lemma py_div_zero (a : R) : py_div a 0 = Raise ZeroDivisionError.
Proof.
  unfold py_div. destruct (Req_dec_T 0 0) as [_ | N]; [reflexivity | now elim N].
Qed.

Lemma py_max0_nonneg (x : R) : 0 <= py_max0 x.
Proof.
  unfold py_max0. destruct (Rgt_dec x 0); lra.
Qed.

Lemma py_max0_pos (x : R) : 0 < x -> py_max0 x = x.
Proof.
  intros Hx. unfold py_max0. destruct (Rgt_dec x 0); lra.
Qed.

Lemma py_max0_nonpos (x : R) : x <= 0 -> py_max0 x = 0.
Proof.
  intros Hx. unfold py_max0. destruct (Rgt_dec x 0); lra.
Qed.

Lemma py_max0_Rmax (x : R) : py_max0 x = Rmax 0 x.
Proof.
  unfold py_max0, Rmax.
  destruct (Rgt_dec x 0), (Rle_dec 0 x); lra.
Qed.

Lemma py_pow_pos (x y : R) : 0 < x -> 0 < py_pow x y.
Proof.
  intros Hx. unfold py_pow. destruct (Rlt_dec 0 x); [| contradiction].
  unfold Rpower. apply exp_pos.
Qed.

Lemma py_pow_lt (x1 x2 y : R) :
  0 < y -> 0 < x1 -> x1 < x2 -> py_pow x1 y < py_pow x2 y.
Proof.
  intros Hy H1 H12. unfold py_pow.
  destruct (Rlt_dec 0 x1); [| contradiction].
  destruct (Rlt_dec 0 x2); [| lra].
  apply Rlt_Rpower_l; [assumption | split; assumption].
Qed.

Lemma Rgtb_true (x y : R) : Rgtb x y = true <-> x > y.
Proof.
  unfold Rgtb. destruct (Rgt_dec x y); split; intros; try assumption;
    try reflexivity; try discriminate; contradiction.
Qed.

Lemma Rgtb_false (x y : R) : Rgtb x y = false <-> ~ x > y.
Proof.
  unfold Rgtb. destruct (Rgt_dec x y); split; intros; try assumption;
    try reflexivity; try discriminate; contradiction.
Qed.

(** ** [range] *)

Lemma range_length (n : Z) : List.length (range n) = Z.to_nat n.
Proof.
  unfold range. now rewrite length_map, length_seq.
Qed.

Lemma range_nth (n : Z) (k : nat) (d : Z) :
  (k < Z.to_nat n)%nat -> nth k (range n) d = Z.of_nat k.
Proof.
  intros Hk. unfold range.
  rewrite (nth_indep _ d (Z.of_nat 0)) by now rewrite length_map, length_seq.
  rewrite map_nth, seq_nth by assumption. reflexivity.
Qed.

Lemma range_In (n i : Z) : In i (range n) <-> (0 <= i < n)%Z.
Proof.
  unfold range. rewrite in_map_iff. split.
  - intros [k [<- Hk]]. apply in_seq in Hk. lia.
  - intros Hi. exists (Z.to_nat i). split; [lia |]. apply in_seq. lia.
Qed.

Lemma range_nonempty (n : Z) : (1 <= n)%Z -> range n <> [].
Proof.
  intros Hn E. apply (f_equal (@List.length Z)) in E.
  rewrite range_length in E. simpl in E. lia.
Qed.

(** ** Small runs *)

Example range_3 : range 3 = [0; 1; 2]%Z.
Proof. reflexivity. Qed.

Example range_negative : range (-2) = [].
Proof. reflexivity. Qed.

Example nombre_linea_0 : nombre_linea 0 = "Línea 1"%string.
Proof. reflexivity. Qed.

Example nombre_linea_11 : nombre_linea 11 = "Línea 12"%string.
Proof. reflexivity. Qed.

Example factors_of_two_lines :
  map (uniformity_factor 2) (range 2) = [0.85; 0.85].
Proof. reflexivity. Qed.

Example factors_of_three_lines :
  map (uniformity_factor 3) (range 3) = [0.85; 0.95; 0.85].
Proof. reflexivity. Qed.

Example factors_of_six_lines :
  map (uniformity_factor 6) (range 6) = [0.85; 0.95; 1.0; 1.0; 0.95; 0.85].
Proof. reflexivity. Qed.

(** ** The loop of [run_industrial_simulation] *)

(** Loop invariant: after the indices [l], the list holds one more value
    per index, in order. *)
Lemma line_loop (n : Z) (w e : R) (l : list Z) (acc : list R) :
  fold_left (line_step n w e) l acc =
  acc ++ map (fun i => line_humidity w e (uniformity_factor n i)) l.
Proof.
  revert acc. induction l as [| i l IH]; intros acc; simpl.
  - now rewrite app_nil_r.
  - rewrite IH. unfold line_step. now rewrite <- app_assoc.
Qed.

(** The function raises nothing: its three divisions have a non-zero
    constant divisor. *)
Lemma run_industrial_simulation_eq (p : Params) :
  run_industrial_simulation p = Ok (simulation_table p).
Proof.
  unfold run_industrial_simulation.
  rewrite (py_div_ok (temperatura p) BASE_TEMP_C) by (unfold BASE_TEMP_C; lra).
  cbn [bind].
  rewrite (py_div_ok (velocidad_aire p) BASE_AIR_SPEED_MS)
    by (unfold BASE_AIR_SPEED_MS; lra).
  cbn [bind].
  rewrite (py_div_ok (humedad_aire p) 100) by lra.
  cbn [bind].
  rewrite line_loop. reflexivity.
Qed.

Lemma humidity_column_length (p : Params) :
  List.length (humidity_column p) = Z.to_nat (num_lineas p).
Proof.
  unfold humidity_column. now rewrite length_map, range_length.
Qed.

Lemma humidity_column_nth (p : Params) (i : Z) :
  (0 <= i < num_lineas p)%Z ->
  nth (Z.to_nat i) (humidity_column p) 0 = humidity_at p i.
Proof.
  intros Hi. unfold humidity_column.
  rewrite (nth_indep _ 0 (humidity_at p 0%Z))
    by (rewrite length_map, range_length; lia).
  rewrite map_nth, range_nth by lia. f_equal. lia.
Qed.

Lemma humidity_at_nonneg (p : Params) (i : Z) : 0 <= humidity_at p i.
Proof.
  unfold humidity_at, line_humidity. apply py_max0_nonneg.
Qed.

(** ** The drying law on the documented domain *)

Ltac valid_fields H :=
  let Hw := fresh "Hpeso" in
  let Hx := fresh "Hesp" in
  let Ht := fresh "Htemp" in
  let Hv := fresh "Hvel" in
  let Hr := fresh "Htiempo" in
  let Hh := fresh "Hhum" in
  let Hn := fresh "Hlineas" in
  destruct H as (Hw & Hx & Ht & Hv & Hr & Hh & Hn).

Lemma valid_params_process (p : Params) :
  valid_params p -> valid_process p.
Proof.
  intros V. valid_fields V. unfold valid_process. tauto.
Qed.

(** The argument of [np.exp] is negative; the wet weight plays no part. *)
Lemma drying_exponent_neg (p : Params) :
  valid_process p -> drying_exponent p < 0.
Proof.
  intros (Htemp & Hvel & Htiempo & Hhum & _). unfold drying_exponent.
  assert (HA : 0 < py_pow (temperatura p / BASE_TEMP_C) 1.5).
  { apply py_pow_pos. unfold BASE_TEMP_C. lra. }
  assert (HB : 0 < py_pow (velocidad_aire p / BASE_AIR_SPEED_MS) 0.8).
  { apply py_pow_pos. unfold BASE_AIR_SPEED_MS. lra. }
  set (A := py_pow _ 1.5) in *. set (B := py_pow _ 0.8) in *.
  assert (HAB : 0 < A * B) by (apply Rmult_lt_0_compat; assumption).
  assert (Hrh : 0 < 1 - humedad_aire p / 100) by lra.
  assert (Ht' : 0 < 0.05 * tiempo_residencia p) by lra.
  assert (H1 : 0 < 0.05 * tiempo_residencia p * (A * B))
    by (apply Rmult_lt_0_compat; assumption).
  assert (H2 : 0 < 0.05 * tiempo_residencia p * (A * B) * (1 - humedad_aire p / 100))
    by (apply Rmult_lt_0_compat; assumption).
  lra.
Qed.

(** Some water is evaporated, and never all of it. *)
Lemma evaporated_base_bounds (p : Params) :
  valid_params p ->
  0 < evaporated_base p < peso_humedo p - DRY_WEIGHT_G.
Proof.
  intros V. pose proof (drying_exponent_neg p (valid_params_process p V)) as Hneg.
  valid_fields V. unfold evaporated_base, DRY_WEIGHT_G.
  pose proof (exp_pos (drying_exponent p)) as Hpos.
  assert (Hlt : exp (drying_exponent p) < 1).
  { rewrite <- exp_0. now apply exp_increasing. }
  split; nra.
Qed.

Lemma uniformity_factor_cases (n i : Z) :
  uniformity_factor n i = 0.85 \/
  uniformity_factor n i = 0.95 \/
  uniformity_factor n i = 1.0.
Proof.
  unfold uniformity_factor.
  destruct (_ || _)%bool; [now left |].
  destruct (_ || _)%bool; [right; now left | right; now right].
Qed.

Lemma uniformity_factor_bounds (n i : Z) :
  0.85 <= uniformity_factor n i <= 1.
Proof.
  destruct (uniformity_factor_cases n i) as [E | [E | E]]; rewrite E; lra.
Qed.

Lemma uniformity_factor_edge (n i : Z) :
  i = 0%Z \/ i = (n - 1)%Z -> uniformity_factor n i = 0.85.
Proof.
  intros Hi. unfold uniformity_factor.
  replace (_ || _)%bool with true; [reflexivity |].
  symmetry. apply Bool.orb_true_iff. rewrite !Z.eqb_eq. assumption.
Qed.

(** The wet-basis ratio grows with the water mass. *)
Lemma wet_basis_lt (x y : R) :
  0 < x -> x < y -> x / (x + 50) < y / (y + 50).
Proof.
  intros Hx Hxy.
  apply Rlt_0_minus.
  replace (y / (y + 50) - x / (x + 50))
    with (50 * (y - x) * / ((x + 50) * (y + 50))) by (field; lra).
  apply Rmult_lt_0_compat; [lra |].
  apply Rinv_0_lt_compat. apply Rmult_lt_0_compat; lra.
Qed.

Lemma wet_basis_pos (x : R) : 0 < x -> 0 < x / (x + 50).
Proof.
  intros Hx. apply Rdiv_lt_0_compat; lra.
Qed.

(** With water left in the product the floor of [max(0, .)] is not
    reached. *)
Lemma line_humidity_wet (w e u : R) :
  0 < w - e * u ->
  line_humidity w e u = (w - e * u) / (w - e * u + 50) * 100.
Proof.
  intros Hpos. unfold line_humidity, np_div, DRY_WEIGHT_G.
  replace (50.0) with 50 by lra.
  apply py_max0_pos.
  pose proof (wet_basis_pos _ Hpos). lra.
Qed.

(** More evaporation, or a larger factor, leaves less moisture. *)
Lemma line_humidity_lt (w e1 u1 e2 u2 : R) :
  0 < w - e2 * u2 -> e1 * u1 < e2 * u2 ->
  line_humidity w e2 u2 < line_humidity w e1 u1.
Proof.
  intros Hpos Hlt.
  rewrite !line_humidity_wet by lra.
  assert (H := wet_basis_lt (w - e2 * u2) (w - e1 * u1) Hpos ltac:(lra)).
  lra.
Qed.

Lemma line_humidity_le (w e1 u1 e2 u2 : R) :
  0 < w - e2 * u2 -> e1 * u1 <= e2 * u2 ->
  line_humidity w e2 u2 <= line_humidity w e1 u1.
Proof.
  intros Hpos [Hlt | Heq].
  - left. now apply line_humidity_lt.
  - right. unfold line_humidity. now rewrite Heq.
Qed.

Lemma water_left (p : Params) (i : Z) :
  valid_params p ->
  0 < peso_humedo p - DRY_WEIGHT_G
      - evaporated_base p * uniformity_factor (num_lineas p) i.
Proof.
  intros V. pose proof (evaporated_base_bounds p V) as [H0 H1].
  pose proof (uniformity_factor_bounds (num_lineas p) i) as [Hu0 Hu1].
  nra.
Qed.

(** On the documented domain every line keeps a positive moisture. *)
Lemma humidity_at_pos (p : Params) (i : Z) :
  valid_params p -> 0 < humidity_at p i.
Proof.
  intros V. unfold humidity_at.
  pose proof (water_left p i V) as Hw.
  rewrite line_humidity_wet by exact Hw.
  pose proof (wet_basis_pos _ Hw). lra.
Qed.

(** ** Sums and means of a column *)

Lemma series_sum_map_lt (f g : Z -> R) (l : list Z) :
  l <> [] -> (forall i, In i l -> f i < g i) ->
  series_sum (map f l) < series_sum (map g l).
Proof.
  induction l as [| a l IH]; intros Hne Hfg; [now elim Hne |].
  simpl. assert (Ha : f a < g a) by (apply Hfg; now left).
  destruct l as [| b l].
  - simpl. lra.
  - assert (series_sum (map f (b :: l)) < series_sum (map g (b :: l))).
    { apply IH; [discriminate | intros i Hi; apply Hfg; now right]. }
    lra.
Qed.

Lemma series_mean_Num (l : list R) :
  l <> [] -> series_mean l = Num (series_sum l / INR (List.length l)).
Proof.
  destruct l; [intros H; now elim H | reflexivity].
Qed.

Lemma series_mean_map_lt (f g : Z -> R) (l : list Z) :
  l <> [] -> (forall i, In i l -> f i < g i) ->
  exists a b, series_mean (map f l) = Num a /\
              series_mean (map g l) = Num b /\ a < b.
Proof.
  intros Hne Hfg.
  assert (Hlen : 0 < INR (List.length l)).
  { apply lt_0_INR. destruct l; [now elim Hne | simpl; lia]. }
  exists (series_sum (map f l) / INR (List.length (map f l))),
         (series_sum (map g l) / INR (List.length (map g l))).
  repeat split.
  - apply series_mean_Num. destruct l; [now elim Hne | discriminate].
  - apply series_mean_Num. destruct l; [now elim Hne | discriminate].
  - rewrite !length_map. unfold Rdiv.
    apply Rmult_lt_compat_r; [now apply Rinv_0_lt_compat |].
    now apply series_sum_map_lt.
Qed.

(** ** The effect of the temperature *)

Lemma drying_exponent_temperatura (p q : Params) :
  valid_params p -> valid_params q -> same_except_temperatura p q ->
  temperatura p < temperatura q ->
  drying_exponent q < drying_exponent p.
Proof.
  intros Vp Vq (Ew & _ & Ev & Et & Eh & _) Hlt.
  valid_fields Vp. valid_fields Vq.
  unfold drying_exponent. rewrite <- Ev, <- Et, <- Eh.
  assert (HA : py_pow (temperatura p / BASE_TEMP_C) 1.5
               < py_pow (temperatura q / BASE_TEMP_C) 1.5).
  { unfold BASE_TEMP_C. apply py_pow_lt; lra. }
  assert (HA0 : 0 < py_pow (temperatura p / BASE_TEMP_C) 1.5).
  { apply py_pow_pos. unfold BASE_TEMP_C. lra. }
  assert (HB : 0 < py_pow (velocidad_aire p / BASE_AIR_SPEED_MS) 0.8).
  { apply py_pow_pos. unfold BASE_AIR_SPEED_MS. lra. }
  set (A1 := py_pow (temperatura p / _) _) in *.
  set (A2 := py_pow (temperatura q / _) _) in *.
  set (B := py_pow (velocidad_aire p / _) _) in *.
  assert (HAB : A1 * B < A2 * B) by (apply Rmult_lt_compat_r; assumption).
  assert (Hk : 0 < 0.05 * tiempo_residencia p * (1 - humedad_aire p / 100)).
  { apply Rmult_lt_0_compat; lra. }
  set (k := 0.05 * tiempo_residencia p * (1 - humedad_aire p / 100)) in *.
  assert (Hm : k * (A1 * B) < k * (A2 * B)) by (apply Rmult_lt_compat_l; assumption).
  replace (-0.05 * tiempo_residencia p * (A2 * B) * (1 - humedad_aire p / 100))
    with (- (k * (A2 * B))) by (unfold k; lra).
  replace (-0.05 * tiempo_residencia p * (A1 * B) * (1 - humedad_aire p / 100))
    with (- (k * (A1 * B))) by (unfold k; lra).
  lra.
Qed.

Lemma evaporated_base_temperatura (p q : Params) :
  valid_params p -> valid_params q -> same_except_temperatura p q ->
  temperatura p < temperatura q ->
  evaporated_base p < evaporated_base q.
Proof.
  intros Vp Vq S Hlt.
  pose proof (drying_exponent_temperatura p q Vp Vq S Hlt) as Hexp.
  apply exp_increasing in Hexp.
  destruct S as (Ew & _). valid_fields Vp.
  unfold evaporated_base, DRY_WEIGHT_G. rewrite <- Ew. nra.
Qed.

(** A hotter dryer leaves strictly less moisture in every line. *)
Lemma humidity_at_temperatura (p q : Params) (i : Z) :
  valid_params p -> valid_params q -> same_except_temperatura p q ->
  temperatura p < temperatura q ->
  humidity_at q i < humidity_at p i.
Proof.
  intros Vp Vq S Hlt.
  pose proof (evaporated_base_temperatura p q Vp Vq S Hlt) as He.
  pose proof (water_left q i Vq) as Hq.
  destruct S as (Ew & _ & _ & _ & _ & En).
  unfold humidity_at. rewrite <- Ew, <- En in *.
  apply line_humidity_lt; [exact Hq |].
  pose proof (uniformity_factor_bounds (num_lineas p) i) as [Hu _].
  apply Rmult_lt_compat_r; lra.
Qed.

(** ... and a strictly smaller average. *)
Lemma mean_temperatura (p q : Params) :
  valid_params p -> valid_params q -> same_except_temperatura p q ->
  temperatura p < temperatura q ->
  exists a b, series_mean (humidity_column q) = Num a /\
              series_mean (humidity_column p) = Num b /\ a < b.
Proof.
  intros Vp Vq S Hlt. unfold humidity_column.
  replace (num_lineas q) with (num_lineas p)
    by (destruct S as (_ & _ & _ & _ & _ & En); exact En).
  apply series_mean_map_lt.
  - apply range_nonempty. valid_fields Vp. lia.
  - intros i _. now apply humidity_at_temperatura.
Qed.

(** ** The position of a line *)

Lemma uniformity_factor_mirror (n i : Z) :
  uniformity_factor n (n - 1 - i) = uniformity_factor n i.
Proof.
  unfold uniformity_factor.
  destruct (Z.eqb_spec i 0), (Z.eqb_spec i (n - 1)),
           (Z.eqb_spec (n - 1 - i) 0), (Z.eqb_spec (n - 1 - i) (n - 1));
    simpl; try reflexivity; try lia;
  destruct (Z.eqb_spec i 1), (Z.eqb_spec i (n - 2)),
           (Z.eqb_spec (n - 1 - i) 1), (Z.eqb_spec (n - 1 - i) (n - 2));
    simpl; try reflexivity; lia.
Qed.

Lemma uniformity_factor_spec (n i : Z) :
  spec_factor n i (uniformity_factor n i).
Proof.
  unfold uniformity_factor.
  destruct (Z.eqb_spec i 0) as [E0 | N0]; simpl.
  { apply factor_outermost. now left. }
  destruct (Z.eqb_spec i (n - 1)) as [E1 | N1]; simpl.
  { apply factor_outermost. now right. }
  assert (Hout : ~ outermost n i) by (intros [H | H]; contradiction).
  destruct (Z.eqb_spec i 1) as [E2 | N2]; simpl.
  { apply factor_second; [assumption | now left]. }
  destruct (Z.eqb_spec i (n - 2)) as [E3 | N3]; simpl.
  { apply factor_second; [assumption | now right]. }
  replace 1.0 with 1.00 by lra.
  apply factor_interior; [assumption | intros [H | H]; contradiction].
Qed.

(** The three cases of the specification exclude one another, so the
    factor they describe is unique. *)
Lemma spec_factor_unique (n i : Z) (u v : R) :
  spec_factor n i u -> spec_factor n i v -> u = v.
Proof.
  intros Hu Hv. destruct Hu, Hv; try reflexivity; contradiction.
Qed.

Ltac solve_valid :=
  unfold valid_params, reference_params, set_param; simpl;
  repeat split; try lra; try lia.

(** ** The claims on [run_industrial_simulation] *)

(** C1: on the documented domain the simulation returns a table of
    exactly [num_lineas] lines, and no residual moisture is negative. *)
Theorem simulate_lines_nonneg (p : Params) :
  valid_params p ->
  exists df, run_industrial_simulation p = Ok df /\
    Z.of_nat (List.length (Humedad_Residual df)) = num_lineas p /\
    List.length (Linea df) = List.length (Humedad_Residual df) /\
    Forall (fun h => h >= 0) (Humedad_Residual df).
Proof.
  intros V. exists (simulation_table p). valid_fields V.
  split; [apply run_industrial_simulation_eq |].
  simpl. rewrite humidity_column_length, length_map, range_length.
  repeat split; [lia |].
  unfold humidity_column. apply Forall_forall. intros h Hh.
  apply in_map_iff in Hh. destruct Hh as [i [<- _]].
  apply Rle_ge, humidity_at_nonneg.
Qed.

Lemma simulate_lines_nonneg_witness :
  valid_params reference_params /\
  exists df, run_industrial_simulation reference_params = Ok df /\
    Z.of_nat (List.length (Humedad_Residual df)) = 6%Z /\
    List.length (Linea df) = List.length (Humedad_Residual df) /\
    Forall (fun h => h >= 0) (Humedad_Residual df).
Proof.
  assert (V : valid_params reference_params) by solve_valid.
  split; [exact V | exact (simulate_lines_nonneg reference_params V)].
Defined.

(** C4: on the documented domain (wet weight above 50 g) an edge line,
    index 0 or [num_lineas - 1], has a residual moisture at least that of
    every interior line of the same run. *)
Theorem edge_lines_wetter (p : Params) (i j : Z) :
  valid_params p -> peso_humedo p > 50 ->
  i = 0%Z \/ i = (num_lineas p - 1)%Z ->
  (0 < j < num_lineas p - 1)%Z ->
  exists df, run_industrial_simulation p = Ok df /\
    nth (Z.to_nat j) (Humedad_Residual df) 0
    <= nth (Z.to_nat i) (Humedad_Residual df) 0.
Proof.
  intros V _ Hi Hj. exists (simulation_table p).
  split; [apply run_industrial_simulation_eq |]. simpl.
  assert (Hn : (2 <= num_lineas p)%Z) by lia.
  rewrite !humidity_column_nth by lia.
  unfold humidity_at. rewrite (uniformity_factor_edge _ i Hi).
  apply line_humidity_le; [apply (water_left p j V) |].
  pose proof (evaporated_base_bounds p V) as [He _].
  pose proof (uniformity_factor_bounds (num_lineas p) j) as [Hu _].
  apply Rmult_le_compat_l; lra.
Qed.

Lemma edge_lines_wetter_witness :
  exists df, run_industrial_simulation reference_params = Ok df /\
    nth 2 (Humedad_Residual df) 0 <= nth 5 (Humedad_Residual df) 0.
Proof.
  apply (edge_lines_wetter reference_params 5 2).
  - solve_valid.
  - simpl; lra.
  - right; reflexivity.
  - simpl; lia.
Defined.

(** C5: for [num_lineas >= 2] and a line index [i] of the run, the
    factor is the one that the three rules give in their order: 0.85 on
    the outermost lines, else 0.95 on the second lines from an edge, else
    1.00.  With two lines both have 0.85; with three the middle one has
    0.95.  On the documented domain of the parameters, line [i] of the
    result is computed with that factor. *)
Theorem uniformity_precedence (p : Params) (i : Z) :
  (2 <= num_lineas p)%Z -> (0 <= i < num_lineas p)%Z ->
  exists u,
    uniformity_factor (num_lineas p) i = u /\
    spec_factor (num_lineas p) i u /\
    (num_lineas p = 2%Z -> u = 0.85) /\
    (num_lineas p = 3%Z -> i = 1%Z -> u = 0.95) /\
    (valid_params p ->
     exists df,
       run_industrial_simulation p = Ok df /\
       nth (Z.to_nat i) (Humedad_Residual df) 0
       = line_humidity (peso_humedo p - DRY_WEIGHT_G) (evaporated_base p) u).
Proof.
  intros Hn Hi.
  exists (uniformity_factor (num_lineas p) i).
  split; [reflexivity |].
  split; [apply uniformity_factor_spec |].
  split; [| split].
  - intros E. apply uniformity_factor_edge. lia.
  - intros E ->. rewrite E. reflexivity.
  - intros _. exists (simulation_table p).
    split; [apply run_industrial_simulation_eq |].
    simpl. now rewrite humidity_column_nth.
Qed.

Lemma uniformity_precedence_witness :
  exists u,
    uniformity_factor 6 4 = u /\
    spec_factor 6 4 u /\
    (6%Z = 2%Z -> u = 0.85) /\
    (6%Z = 3%Z -> 4%Z = 1%Z -> u = 0.95) /\
    (valid_params reference_params ->
     exists df,
       run_industrial_simulation reference_params = Ok df /\
       nth 4 (Humedad_Residual df) 0
       = line_humidity (240 - DRY_WEIGHT_G) (evaporated_base reference_params) u).
Proof.
  apply (uniformity_precedence reference_params 4); simpl; lia.
Defined.

(** C10: on the documented domain the moisture profile is symmetric:
    line [i] and line [num_lineas - 1 - i] have the same residual
    moisture. *)
Theorem line_symmetry (p : Params) (i : Z) :
  valid_params p -> (0 <= i < num_lineas p)%Z ->
  exists df, run_industrial_simulation p = Ok df /\
    nth (Z.to_nat i) (Humedad_Residual df) 0
    = nth (Z.to_nat (num_lineas p - 1 - i)) (Humedad_Residual df) 0.
Proof.
  intros _ Hi. exists (simulation_table p).
  split; [apply run_industrial_simulation_eq |]. simpl.
  rewrite !humidity_column_nth by lia.
  unfold humidity_at. now rewrite uniformity_factor_mirror.
Qed.

Lemma line_symmetry_witness :
  exists df, run_industrial_simulation reference_params = Ok df /\
    nth 1 (Humedad_Residual df) 0 = nth 4 (Humedad_Residual df) 0.
Proof.
  apply (line_symmetry reference_params 1); [solve_valid | simpl; lia].
Defined.

(** ** The claims on [calculate_kpis] *)

Lemma Rmax_gt (a b c : R) : Rmax a b > c <-> a > c \/ b > c.
Proof.
  unfold Rmax. destruct (Rle_dec a b); split; intros H; lra.
Qed.

Lemma fold_Rmax_gt (l : list R) (x c : R) :
  fold_left Rmax l x > c <-> x > c \/ some_above c l.
Proof.
  unfold some_above. revert x. induction l as [| y l IH]; intros x; simpl.
  - rewrite Exists_nil. tauto.
  - rewrite IH, Rmax_gt, Exists_cons. tauto.
Qed.

(** [Series.max()] of a non-empty column is its maximum. *)
Lemma fold_Rmax_is_max (l : list R) (x : R) :
  is_max (fold_left Rmax l x) (x :: l).
Proof.
  revert x. induction l as [| y l IH]; intros x; simpl.
  - split; [now left | apply Forall_cons; [lra | apply Forall_nil]].
  - destruct (IH (Rmax x y)) as [Hin Hall].
    apply Forall_cons_iff in Hall. destruct Hall as [Hxy Hall].
    pose proof (Rmax_l x y). pose proof (Rmax_r x y).
    split.
    + destruct Hin as [E | Hin]; [| now right; right].
      rewrite <- E. unfold Rmax. destruct (Rle_dec x y); [right |]; now left.
    + apply Forall_cons; [lra | apply Forall_cons; [lra | assumption]].
Qed.

Lemma series_max_is_max (l : list R) (m : R) :
  series_max l = Num m -> is_max m l.
Proof.
  destruct l as [| x l]; simpl; [discriminate |].
  intros E. injection E as <-. apply fold_Rmax_is_max.
Qed.

Lemma max_above_some (c : R) (l : list R) :
  max_above c l <-> some_above c l.
Proof.
  unfold max_above, some_above. rewrite Exists_exists. split.
  - intros (m & [Hin _] & Hgt). now exists m.
  - intros (h & Hin & Hgt). destruct l as [| x l]; [contradiction |].
    exists (fold_left Rmax l x).
    pose proof (fold_Rmax_is_max l x) as Hmax. split; [exact Hmax |].
    destruct Hmax as [_ Hall]. rewrite Forall_forall in Hall.
    specialize (Hall h Hin). lra.
Qed.

(** The comparison of the column maximum with a threshold holds exactly
    when the maximum exists and is above the threshold; on an empty
    column it fails. *)
Lemma series_max_gtb (l : list R) (c : R) :
  nan_gtb (series_max l) c = true <-> max_above c l.
Proof.
  rewrite max_above_some. unfold some_above. destruct l as [| x l]; simpl.
  - rewrite Exists_nil. split; [discriminate | tauto].
  - rewrite Rgtb_true, fold_Rmax_gt, Exists_cons. reflexivity.
Qed.

Lemma risk_test (t c1 c2 : R) (l : list R) :
  (Rgtb t c1 || nan_gtb (series_max l) c2)%bool = true <->
  t > c1 \/ max_above c2 l.
Proof.
  now rewrite Bool.orb_true_iff, Rgtb_true, series_max_gtb.
Qed.

Lemma risk_of_spec (t : R) (l : list R) : spec_risk t l (risk_of t l).
Proof.
  unfold risk_of.
  destruct (Rgtb t 160 || nan_gtb (series_max l) 12)%bool eqn:E1.
  { apply risk_high. now apply risk_test. }
  assert (N1 : ~ (t > 160 \/ max_above 12 l)).
  { intros H. apply risk_test in H. congruence. }
  destruct (Rgtb t 140 || nan_gtb (series_max l) 9)%bool eqn:E2.
  { apply risk_medium; [assumption | now apply risk_test]. }
  apply risk_low; [assumption |].
  intros H. apply risk_test in H. congruence.
Qed.

(** [calculate_kpis] returns unless the residence time is zero, and its
    risk is the one of [risk_of]. *)
Lemma calculate_kpis_returns (p : Params) (df : DataFrame) :
  tiempo_residencia p <> 0 ->
  exists k, calculate_kpis p df = Ok k /\
    humedad_promedio k = series_mean (Humedad_Residual df) /\
    riesgo_calidad k = risk_of (temperatura p) (Humedad_Residual df).
Proof.
  intros Ht. unfold calculate_kpis.
  rewrite (py_div_ok _ 1000) by lra. cbn [bind].
  rewrite (py_div_ok 60 _) by assumption. cbn [bind].
  rewrite (py_div_ok _ 1000) by lra. cbn [bind].
  eexists. split; [reflexivity |]. split; reflexivity.
Qed.

Lemma max_above_le (c d : R) (l : list R) :
  c <= d -> Forall (fun h => h <= c) l -> ~ max_above d l.
Proof.
  intros Hcd Hall (m & [Hin _] & Hgt).
  rewrite Forall_forall in Hall. specialize (Hall m Hin). lra.
Qed.

(** C2: the risk is High when the temperature is above 160 or some line
    is above 12 % (the maximum is); else Medium when the temperature is
    above 140 or some line is above 9 %; else Low.  At 161 degrees the
    risk is High, and at 135 degrees with every line at most 9 % it is
    Low. *)
Theorem risk_classification (p : Params) (df : DataFrame) :
  valid_params p ->
  exists k, calculate_kpis p df = Ok k /\
    spec_risk (temperatura p) (Humedad_Residual df) (riesgo_calidad k) /\
    (num_lineas p = 6%Z -> temperatura p = 161 ->
     riesgo_calidad k = "Alto"%string) /\
    (temperatura p = 135 -> Forall (fun h => h <= 9) (Humedad_Residual df) ->
     riesgo_calidad k = "Bajo"%string).
Proof.
  intros V. valid_fields V.
  destruct (calculate_kpis_returns p df) as (k & Hk & _ & Hrisk); [lra |].
  exists k. split; [exact Hk |]. rewrite Hrisk.
  split; [apply risk_of_spec |]. split.
  - intros _ Et. unfold risk_of.
    replace (Rgtb (temperatura p) 160) with true; [reflexivity |].
    symmetry. apply Rgtb_true. lra.
  - intros Et Hall. unfold risk_of.
    destruct (Rgtb _ 160 || _)%bool eqn:E1.
    { apply risk_test in E1. destruct E1 as [H | H]; [lra |].
      elim (max_above_le 9 12 _ ltac:(lra) Hall H). }
    destruct (Rgtb _ 140 || _)%bool eqn:E2; [| reflexivity].
    apply risk_test in E2. destruct E2 as [H | H]; [lra |].
    elim (max_above_le 9 9 _ ltac:(lra) Hall H).
Qed.

Lemma risk_classification_witness :
  exists k, calculate_kpis reference_params (simulation_table reference_params) = Ok k /\
    spec_risk 135 (humidity_column reference_params) (riesgo_calidad k) /\
    (6%Z = 6%Z -> 135 = 161 -> riesgo_calidad k = "Alto"%string) /\
    (135 = 135 -> Forall (fun h => h <= 9) (humidity_column reference_params) ->
     riesgo_calidad k = "Bajo"%string).
Proof.
  apply (risk_classification reference_params (simulation_table reference_params)).
  solve_valid.
Defined.

(** C9: ['espesor'] is never read: two parameter sets that differ only in
    it give the same simulation result and, on any table, the same
    indicators. *)
Theorem espesor_noninterference (p q : Params) :
  same_except_espesor p q ->
  run_industrial_simulation p = run_industrial_simulation q /\
  (forall df, calculate_kpis p df = calculate_kpis q df) /\
  (forall dfp dfq,
     run_industrial_simulation p = Ok dfp ->
     run_industrial_simulation q = Ok dfq ->
     calculate_kpis p dfp = calculate_kpis q dfq).
Proof.
  intros (Ew & Et & Ev & Er & Eh & En).
  assert (Hrun : run_industrial_simulation p = run_industrial_simulation q).
  { unfold run_industrial_simulation. now rewrite Ew, Et, Ev, Er, Eh, En. }
  assert (Hkpi : forall df, calculate_kpis p df = calculate_kpis q df).
  { intros df. unfold calculate_kpis. now rewrite Ew, Et, Ev, Er, En. }
  split; [exact Hrun |]. split; [exact Hkpi |].
  intros dfp dfq Hp Hq. rewrite Hrun, Hq in Hp.
  injection Hp as <-. apply Hkpi.
Qed.

Lemma espesor_noninterference_witness :
  let q := mkParams 240 4.5 135 1.5 10 50 6 in
  run_industrial_simulation reference_params = run_industrial_simulation q /\
  (forall df, calculate_kpis reference_params df = calculate_kpis q df) /\
  (forall dfp dfq,
     run_industrial_simulation reference_params = Ok dfp ->
     run_industrial_simulation q = Ok dfq ->
     calculate_kpis reference_params dfp = calculate_kpis q dfq).
Proof.
  intros q. apply (espesor_noninterference reference_params q).
  unfold same_except_espesor; simpl; repeat split.
Defined.

(** ** Inputs that the specification wants rejected *)

(** A product that holds no water, or less than none, is reported at
    0 %: the ratio is not positive and [max(0, .)] floors it. *)
Lemma humidity_at_dried (p : Params) (i : Z) :
  valid_process p -> 0 < peso_humedo p <= 50 -> humidity_at p i = 0.
Proof.
  intros V [Hw0 Hw].
  pose proof (drying_exponent_neg p V) as Hneg.
  pose proof (exp_pos (drying_exponent p)) as Hpos.
  assert (Hlt : exp (drying_exponent p) < 1).
  { rewrite <- exp_0. now apply exp_increasing. }
  pose proof (uniformity_factor_bounds (num_lineas p) i) as [Hu0 Hu1].
  unfold humidity_at, line_humidity, evaporated_base, np_div, DRY_WEIGHT_G.
  set (u := uniformity_factor _ _) in *.
  set (c := 1 - exp (drying_exponent p)) in *.
  set (w := peso_humedo p - 50.0).
  assert (Hw' : -50 < w <= 0) by (unfold w; lra).
  assert (Hc : 0 < c < 1) by (unfold c; lra).
  assert (Hcu : 0 < c * u < 1) by nra.
  assert (Hfin : -50 < w - w * c * u <= 0).
  { replace (w - w * c * u) with (w * (1 - c * u)) by ring. nra. }
  apply py_max0_nonpos.
  assert (Hinv : 0 < / (w - w * c * u + 50.0)).
  { apply Rinv_0_lt_compat. lra. }
  unfold Rdiv. nra.
Qed.

Lemma calculate_kpis_zero_time (p : Params) (df : DataFrame) :
  tiempo_residencia p = 0 ->
  calculate_kpis p df = Raise ZeroDivisionError.
Proof.
  intros Ht. unfold calculate_kpis.
  rewrite (py_div_ok _ 1000) by lra. cbn [bind].
  rewrite Ht, py_div_zero. reflexivity.
Qed.

(** C7, as stated, fails: with a wet weight of 50 g the simulation raises
    nothing and returns six lines at 0 %. *)
Lemma wet_weight_50_accepted :
  peso_humedo dry_params <= 50 /\
  (forall e, run_industrial_simulation dry_params <> Raise e) /\
  exists df, run_industrial_simulation dry_params = Ok df /\
    Humedad_Residual df = [0; 0; 0; 0; 0; 0].
Proof.
  assert (V : valid_process dry_params).
  { unfold valid_process, dry_params; simpl. repeat split; try lra; try lia. }
  assert (W : 0 < peso_humedo dry_params <= 50) by (simpl; lra).
  rewrite run_industrial_simulation_eq.
  split; [simpl; lra |]. split; [discriminate |].
  exists (simulation_table dry_params). split; [reflexivity |].
  simpl. unfold humidity_column.
  change (range (num_lineas dry_params)) with [0; 1; 2; 3; 4; 5]%Z.
  simpl map. now rewrite !(humidity_at_dried dry_params _ V W).
Qed.

(** C7, amended: a wet weight of at most 50 g raises nothing in the
    simulation, which returns its [num_lineas] lines, all floored at 0 %
    when the weight is positive; a residence time of zero makes
    [calculate_kpis] raise [ZeroDivisionError]. *)
Theorem invalid_inputs (p q : Params) (df : DataFrame) :
  valid_process p -> peso_humedo p <= 50 ->
  tiempo_residencia q = 0 ->
  (exists t, run_industrial_simulation p = Ok t /\
     Z.of_nat (List.length (Humedad_Residual t)) = num_lineas p /\
     (0 < peso_humedo p -> Forall (fun h => h = 0) (Humedad_Residual t))) /\
  calculate_kpis q df = Raise ZeroDivisionError.
Proof.
  intros V Hw Ht. split; [| now apply calculate_kpis_zero_time].
  exists (simulation_table p).
  split; [apply run_industrial_simulation_eq |]. simpl.
  split.
  - rewrite humidity_column_length. destruct V as (_ & _ & _ & _ & Hn). lia.
  - intros Hw0. unfold humidity_column. apply Forall_forall. intros h Hh.
    apply in_map_iff in Hh. destruct Hh as [i [<- _]].
    apply humidity_at_dried; [assumption | lra].
Qed.

Lemma invalid_inputs_witness :
  (exists t, run_industrial_simulation dry_params = Ok t /\
     Z.of_nat (List.length (Humedad_Residual t)) = 6%Z /\
     (0 < 50 -> Forall (fun h => h = 0) (Humedad_Residual t))) /\
  calculate_kpis zero_time_params empty_table = Raise ZeroDivisionError.
Proof.
  apply (invalid_inputs dry_params zero_time_params empty_table).
  - unfold valid_process, dry_params; simpl. repeat split; try lra; try lia.
  - simpl; lra.
  - reflexivity.
Defined.

(** C8, as stated, fails: on a table without lines [calculate_kpis]
    raises nothing and returns indicators, the average being NaN. *)
Lemma empty_table_accepted :
  Humedad_Residual empty_table = [] /\
  (forall e, calculate_kpis reference_params empty_table <> Raise e) /\
  exists k, calculate_kpis reference_params empty_table = Ok k /\
    humedad_promedio k = NaN /\
    riesgo_calidad k = "Bajo"%string.
Proof.
  destruct (calculate_kpis_returns reference_params empty_table)
    as (k & Hk & Hmean & Hrisk); [simpl; lra |].
  split; [reflexivity |]. split; [rewrite Hk; discriminate |].
  exists k. split; [exact Hk |]. split; [exact Hmean |].
  rewrite Hrisk. unfold risk_of. simpl.
  replace (Rgtb 135 160) with false by (symmetry; apply Rgtb_false; lra).
  replace (Rgtb 135 140) with false by (symmetry; apply Rgtb_false; lra).
  reflexivity.
Qed.

(** C8, amended: for parameters of the documented domain
    [calculate_kpis] accepts a table without lines: the average moisture
    and the evaporation rate are NaN, and the risk follows the
    temperature alone. *)
Theorem empty_results_not_rejected (p : Params) (df : DataFrame) :
  valid_params p -> Humedad_Residual df = [] ->
  exists k, calculate_kpis p df = Ok k /\
    humedad_promedio k = NaN /\
    tasa_evaporacion k = NaN /\
    riesgo_calidad k =
      (if Rgtb (temperatura p) 160 then "Alto"
       else if Rgtb (temperatura p) 140 then "Medio" else "Bajo")%string.
Proof.
  intros V Hempty.
  assert (Ht : tiempo_residencia p <> 0) by (valid_fields V; lra).
  unfold calculate_kpis.
  rewrite (py_div_ok _ 1000) by lra. cbn [bind].
  rewrite (py_div_ok 60 _) by assumption. cbn [bind].
  rewrite (py_div_ok _ 1000) by lra. cbn [bind].
  eexists. split; [reflexivity |]. rewrite Hempty. simpl.
  rewrite !Bool.orb_false_r. repeat split.
Qed.

Lemma empty_results_not_rejected_witness :
  exists k, calculate_kpis reference_params empty_table = Ok k /\
    humedad_promedio k = NaN /\
    tasa_evaporacion k = NaN /\
    riesgo_calidad k =
      (if Rgtb 135 160 then "Alto"
       else if Rgtb 135 140 then "Medio" else "Bajo")%string.
Proof.
  apply (empty_results_not_rejected reference_params empty_table).
  - solve_valid.
  - reflexivity.
Defined.

(** ** The sensitivity loop *)


Lemma nth_map_range {A : Type} (g : Z -> A) (n k : Z) (d : A) :
  (0 <= k < n)%Z -> nth (Z.to_nat k) (map g (range n)) d = g k.
Proof.
  intros Hk.
  rewrite (nth_indep _ d (g 0%Z)) by (rewrite length_map, range_length; lia).
  rewrite map_nth, range_nth by lia. f_equal. lia.
Qed.





Lemma set_temperatura_same (p : Params) (s t : R) :
  same_except_temperatura (set_param key_temperatura s p)
                          (set_param key_temperatura t p).
Proof.
  unfold same_except_temperatura; simpl. repeat split.
Qed.





(** * Further properties of the program *)

(** ** The moisture of a line *)

(** The water left in line [i]. *)
Lemma humidity_at_closed (p : Params) (i : Z) :
  valid_params p ->
  let f := (peso_humedo p - 50) *
           (1 - (1 - exp (drying_exponent p)) * uniformity_factor (num_lineas p) i) in
  0 < f /\ humidity_at p i = f / (f + 50) * 100.
Proof.
  intros V f. pose proof (water_left p i V) as Hw.
  assert (Ef : f = peso_humedo p - DRY_WEIGHT_G
                   - evaporated_base p * uniformity_factor (num_lineas p) i).
  { unfold f, evaporated_base, DRY_WEIGHT_G. lra. }
  rewrite Ef. split; [exact Hw |].
  unfold humidity_at. now apply line_humidity_wet.
Qed.

Lemma wet_basis_le (x y : R) :
  0 < x -> x <= y -> x / (x + 50) <= y / (y + 50).
Proof.
  intros Hx [Hlt | ->]; [left; now apply wet_basis_lt | right; reflexivity].
Qed.

Lemma humidity_at_below_initial (p : Params) (i : Z) :
  valid_params p -> humidity_at p i < initial_humidity p.
Proof.
  intros V. unfold humidity_at, initial_humidity, DRY_WEIGHT_G.
  pose proof (water_left p i V) as Hw.
  pose proof (evaporated_base_bounds p V) as [He _].
  pose proof (uniformity_factor_bounds (num_lineas p) i) as [Hu _].
  rewrite line_humidity_wet by exact Hw.
  unfold DRY_WEIGHT_G in Hw.
  assert (Hlt : peso_humedo p - 50.0
                - evaporated_base p * uniformity_factor (num_lineas p) i
                < peso_humedo p - 50.0) by nra.
  pose proof (wet_basis_lt _ _ Hw Hlt) as H.
  replace (peso_humedo p - 50.0 + 50.0) with (peso_humedo p - 50.0 + 50) by lra.
  lra.
Qed.

Lemma initial_humidity_below_100 (p : Params) :
  valid_params p -> initial_humidity p < 100.
Proof.
  intros V. valid_fields V. unfold initial_humidity, DRY_WEIGHT_G.
  replace (peso_humedo p - 50.0 + 50.0) with (peso_humedo p) by lra.
  assert (H : (peso_humedo p - 50.0) / peso_humedo p < 1).
  { apply Rmult_lt_reg_r with (peso_humedo p); [lra |].
    unfold Rdiv. rewrite Rmult_assoc, Rinv_l by lra. lra. }
  lra.
Qed.

Lemma Forall_humidity_column (P : R -> Prop) (p : Params) :
  (forall i, (0 <= i < num_lineas p)%Z -> P (humidity_at p i)) ->
  Forall P (humidity_column p).
Proof.
  intros H. unfold humidity_column. apply Forall_forall. intros h Hh.
  apply in_map_iff in Hh. destruct Hh as [i [<- Hi]].
  apply H. now apply range_In.
Qed.

(** Drying removes water and never all of it: on the documented domain
    every line ends strictly between 0 % and the moisture that the
    product had before drying, which is below 100 %. *)
Theorem lines_between_dry_and_initial (p : Params) :
  valid_params p ->
  exists df, run_industrial_simulation p = Ok df /\
    Forall (fun h => 0 < h < initial_humidity p) (Humedad_Residual df) /\
    initial_humidity p < 100.
Proof.
  intros V. exists (simulation_table p).
  split; [apply run_industrial_simulation_eq |].
  split; [| now apply initial_humidity_below_100].
  simpl. apply Forall_humidity_column. intros i _.
  split; [now apply humidity_at_pos | now apply humidity_at_below_initial].
Qed.

Lemma lines_between_dry_and_initial_witness :
  exists df, run_industrial_simulation reference_params = Ok df /\
    Forall (fun h => 0 < h < initial_humidity reference_params)
           (Humedad_Residual df) /\
    initial_humidity reference_params < 100.
Proof.
  apply (lines_between_dry_and_initial reference_params). solve_valid.
Defined.

(** The factor does not decrease from an edge to the centre. *)
Lemma uniformity_factor_inward (n i j : Z) :
  (0 <= i <= j)%Z -> (2 * j <= n - 1)%Z ->
  uniformity_factor n i <= uniformity_factor n j.
Proof.
  intros Hij Hj. unfold uniformity_factor.
  destruct (Z.eqb_spec i 0), (Z.eqb_spec i (n - 1)),
           (Z.eqb_spec j 0), (Z.eqb_spec j (n - 1));
    simpl; try lra; try lia;
  destruct (Z.eqb_spec i 1), (Z.eqb_spec i (n - 2)),
           (Z.eqb_spec j 1), (Z.eqb_spec j (n - 2));
    simpl; try lra; try lia;
  destruct (Z.eqb_spec j 1), (Z.eqb_spec j (n - 2)); simpl; try lra; lia.
Qed.

Lemma humidity_at_factor_le (p : Params) (i j : Z) :
  valid_params p ->
  uniformity_factor (num_lineas p) i <= uniformity_factor (num_lineas p) j ->
  humidity_at p j <= humidity_at p i.
Proof.
  intros V Hu. unfold humidity_at.
  apply line_humidity_le; [apply (water_left p j V) |].
  pose proof (evaporated_base_bounds p V) as [He _].
  apply Rmult_le_compat_l; lra.
Qed.

(** The moisture profile does not increase from an edge to the centre of
    the dryer: of two lines of the same half, the one nearer to the edge
    is at least as wet. *)
Theorem profile_decreases_inward (p : Params) (i j : Z) :
  valid_params p ->
  (0 <= i <= j)%Z -> (2 * j <= num_lineas p - 1)%Z ->
  exists df, run_industrial_simulation p = Ok df /\
    nth (Z.to_nat j) (Humedad_Residual df) 0
    <= nth (Z.to_nat i) (Humedad_Residual df) 0.
Proof.
  intros V Hij Hj. exists (simulation_table p).
  split; [apply run_industrial_simulation_eq |]. simpl.
  rewrite !humidity_column_nth by lia.
  apply humidity_at_factor_le; [assumption |].
  now apply uniformity_factor_inward.
Qed.

Lemma profile_decreases_inward_witness :
  exists df, run_industrial_simulation reference_params = Ok df /\
    nth 2 (Humedad_Residual df) 0 <= nth 1 (Humedad_Residual df) 0.
Proof.
  apply (profile_decreases_inward reference_params 1 2);
    [solve_valid | simpl; lia | simpl; lia].
Defined.

(** ** The indicators of a simulated table *)

Lemma series_sum_bounds (lo hi : R) (l : list R) :
  Forall (fun h => lo < h < hi) l -> l <> [] ->
  lo * INR (List.length l) < series_sum l < hi * INR (List.length l).
Proof.
  intros Hall Hne. induction Hall as [| x l [Hlo Hhi] Hall IH]; [now elim Hne |].
  destruct l as [| y l'].
  - simpl. lra.
  - specialize (IH ltac:(discriminate)).
    change (series_sum (x :: y :: l')) with (x + series_sum (y :: l')).
    change (List.length (x :: y :: l')) with (S (List.length (y :: l'))).
    rewrite S_INR. lra.
Qed.

(** The mean of a non-empty column lies within its bounds. *)
Lemma series_mean_bounds (lo hi : R) (l : list R) :
  Forall (fun h => lo < h < hi) l -> l <> [] ->
  exists a, series_mean l = Num a /\ lo < a < hi.
Proof.
  intros Hall Hne. exists (series_sum l / INR (List.length l)).
  split; [now apply series_mean_Num |].
  destruct (series_sum_bounds lo hi l Hall Hne) as [H1 H2].
  assert (Hlen : 0 < INR (List.length l)).
  { apply lt_0_INR. destruct l; [now elim Hne | simpl; lia]. }
  split.
  - apply Rmult_lt_reg_r with (INR (List.length l)); [assumption |].
    unfold Rdiv. rewrite Rmult_assoc, Rinv_l by lra. lra.
  - apply Rmult_lt_reg_r with (INR (List.length l)); [assumption |].
    unfold Rdiv. rewrite Rmult_assoc, Rinv_l by lra. lra.
Qed.

Lemma humidity_column_nonempty (p : Params) :
  (1 <= num_lineas p)%Z -> humidity_column p <> [].
Proof.
  intros Hn E. unfold humidity_column in E. apply map_eq_nil in E.
  now apply (range_nonempty _ Hn).
Qed.

(** The dictionary that [calculate_kpis] returns when the residence time
    is not zero. *)
Lemma calculate_kpis_fields (p : Params) (df : DataFrame) :
  tiempo_residencia p <> 0 ->
  exists k, calculate_kpis p df = Ok k /\
    humedad_promedio k = series_mean (Humedad_Residual df) /\
    costo_energetico k =
      (velocidad_aire p * (IZR (num_lineas p) * 0.5) * 1.0 * 1005
         * (temperatura p - 25) / 1000
       + 2.5 * velocidad_aire p ^ 3 * IZR (num_lineas p)) * 0.15 /\
    tasa_evaporacion k =
      nan_map (fun m => ((peso_humedo p - 50) / 1000
                         - m / 100 * peso_humedo p / 1000)
                        * (60 / tiempo_residencia p * IZR (num_lineas p)))
              (series_mean (Humedad_Residual df)) /\
    riesgo_calidad k = risk_of (temperatura p) (Humedad_Residual df).
Proof.
  intros Ht. unfold calculate_kpis.
  rewrite (py_div_ok _ 1000) by lra. cbn [bind].
  rewrite (py_div_ok 60 _) by assumption. cbn [bind].
  rewrite (py_div_ok _ 1000) by lra. cbn [bind].
  eexists. split; [reflexivity |]. cbn.
  repeat split.
  destruct (series_mean (Humedad_Residual df)); reflexivity.
Qed.

(** The outermost line keeps more than 31 % of moisture: at most 85 % of
    the water leaves it, and the water is at least 150 g. *)
Lemma edge_line_above_31 (p : Params) :
  valid_params p -> humidity_at p 0 > 31.
Proof.
  intros V. destruct (humidity_at_closed p 0 V) as [Hf Heq].
  rewrite Heq. clear Heq.
  rewrite (uniformity_factor_edge (num_lineas p) 0) in * by now left.
  set (f := _ * _) in *.
  pose proof (drying_exponent_neg p (valid_params_process p V)) as Hneg.
  pose proof (exp_pos (drying_exponent p)) as Hpos.
  valid_fields V.
  assert (Hf' : 22.5 < f) by (unfold f; nra).
  pose proof (wet_basis_lt 22.5 f ltac:(lra) Hf') as H.
  assert (E : 22.5 / (22.5 + 50) = 9 / 29) by lra.
  rewrite E in H. lra.
Qed.

Lemma pipeline_eq (p : Params) :
  pipeline p = (kpis <- calculate_kpis p (simulation_table p) ;;
                Ok (simulation_table p, kpis)).
Proof.
  unfold pipeline. now rewrite run_industrial_simulation_eq.
Qed.

(** On the whole documented domain the risk that the script displays for
    its own simulation is "Alto": the first line holds more than 31 % of
    moisture, above the threshold of 12 %. *)
Theorem pipeline_risk_always_alto (p : Params) :
  valid_params p ->
  exists df k,
    pipeline p = Ok (df, k) /\
    nth 0 (Humedad_Residual df) 0 > 31 /\
    riesgo_calidad k = "Alto"%string.
Proof.
  intros V. rewrite pipeline_eq.
  destruct (calculate_kpis_fields p (simulation_table p))
    as (k & Hk & _ & _ & _ & Hrisk).
  { valid_fields V. lra. }
  exists (simulation_table p), k. rewrite Hk. cbn [bind].
  split; [reflexivity |].
  pose proof (edge_line_above_31 p V) as Hedge.
  assert (Hn : (0 <= 0 < num_lineas p)%Z) by (valid_fields V; lia).
  split.
  - simpl. change 0%nat with (Z.to_nat 0).
    now rewrite humidity_column_nth.
  - rewrite Hrisk. unfold risk_of. simpl.
    replace (Rgtb (temperatura p) 160
             || nan_gtb (series_max (humidity_column p)) 12)%bool with true;
      [reflexivity |].
    symmetry. apply risk_test. right. apply max_above_some.
    unfold some_above. apply Exists_exists. exists (humidity_at p 0).
    split; [| lra].
    unfold humidity_column. apply in_map. now apply range_In.
Qed.

Lemma pipeline_risk_always_alto_witness :
  exists df k,
    pipeline reference_params = Ok (df, k) /\
    nth 0 (Humedad_Residual df) 0 > 31 /\
    riesgo_calidad k = "Alto"%string.
Proof.
  apply (pipeline_risk_always_alto reference_params). solve_valid.
Defined.

(** On the documented domain the script obtains its indicators: the
    average moisture is a number strictly between 0 % and the initial
    moisture, and the evaporation rate and the energy cost are positive. *)
Theorem pipeline_indicators_positive (p : Params) :
  valid_params p ->
  exists df k avg rate,
    pipeline p = Ok (df, k) /\
    humedad_promedio k = Num avg /\ 0 < avg < initial_humidity p /\
    tasa_evaporacion k = Num rate /\ 0 < rate /\
    0 < costo_energetico k.
Proof.
  intros V. rewrite pipeline_eq.
  destruct (calculate_kpis_fields p (simulation_table p))
    as (k & Hk & Hmean & Hcost & Hrate & _).
  { valid_fields V. lra. }
  destruct (series_mean_bounds 0 (initial_humidity p) (humidity_column p))
    as (avg & Havg & Hlo & Hhi).
  { apply Forall_humidity_column. intros i _.
    split; [now apply humidity_at_pos | now apply humidity_at_below_initial]. }
  { apply humidity_column_nonempty. valid_fields V. lia. }
  simpl in Hmean, Hrate. rewrite Havg in Hmean, Hrate. simpl in Hrate.
  exists (simulation_table p), k, avg. eexists.
  rewrite Hk. cbn [bind].
  split; [reflexivity |]. split; [exact Hmean |].
  split; [split; assumption |]. split; [exact Hrate |].
  valid_fields V.
  assert (Hn : 2 <= IZR (num_lineas p)) by (apply IZR_le; lia).
  split.
  - unfold initial_humidity, DRY_WEIGHT_G in Hhi.
    replace (peso_humedo p - 50.0 + 50.0) with (peso_humedo p) in Hhi by lra.
    replace (peso_humedo p - 50.0) with (peso_humedo p - 50) in Hhi by lra.
    assert (Hq : 0 < 60 / tiempo_residencia p) by (apply Rdiv_lt_0_compat; lra).
    apply Rmult_lt_0_compat; [| nra].
    assert (Hw : avg * peso_humedo p < (peso_humedo p - 50) * 100).
    { apply Rmult_lt_compat_r with (r := peso_humedo p) in Hhi; [| lra].
      replace ((peso_humedo p - 50) / peso_humedo p * 100 * peso_humedo p)
        with ((peso_humedo p - 50) * 100) in Hhi by (field; lra).
      exact Hhi. }
    lra.
  - rewrite Hcost.
    assert (Hv3 : 0 < velocidad_aire p ^ 3).
    { apply pow_lt. lra. }
    assert (H1 : 0 < velocidad_aire p * IZR (num_lineas p) * (temperatura p - 25)).
    { apply Rmult_lt_0_compat; [apply Rmult_lt_0_compat |]; lra. }
    assert (H2 : 0 < velocidad_aire p ^ 3 * IZR (num_lineas p)).
    { apply Rmult_lt_0_compat; lra. }
    lra.
Qed.

Lemma pipeline_indicators_positive_witness :
  exists df k avg rate,
    pipeline reference_params = Ok (df, k) /\
    humedad_promedio k = Num avg /\ 0 < avg < initial_humidity reference_params /\
    tasa_evaporacion k = Num rate /\ 0 < rate /\
    0 < costo_energetico k.
Proof.
  apply (pipeline_indicators_positive reference_params). solve_valid.
Defined.

(** ** The effect of each parameter *)

(** With the wet weight and the number of lines fixed, a smaller argument
    of [np.exp] leaves strictly less moisture in every line. *)
Lemma humidity_at_exponent_lt (p q : Params) (i : Z) :
  valid_params p -> valid_params q ->
  peso_humedo p = peso_humedo q -> num_lineas p = num_lineas q ->
  drying_exponent q < drying_exponent p ->
  humidity_at q i < humidity_at p i.
Proof.
  intros Vp Vq Ew En Hexp.
  pose proof (water_left q i Vq) as Hq.
  apply exp_increasing in Hexp.
  assert (He : evaporated_base p < evaporated_base q).
  { valid_fields Vp. unfold evaporated_base, DRY_WEIGHT_G. rewrite <- Ew. nra. }
  unfold humidity_at. rewrite <- Ew, <- En in *.
  apply line_humidity_lt; [exact Hq |].
  pose proof (uniformity_factor_bounds (num_lineas p) i) as [Hu _].
  apply Rmult_lt_compat_r; lra.
Qed.

(** With the process fixed, a heavier product keeps strictly more
    moisture in every line. *)
Lemma humidity_at_peso_lt (p q : Params) (i : Z) :
  valid_params p -> valid_params q ->
  drying_exponent p = drying_exponent q -> num_lineas p = num_lineas q ->
  peso_humedo p < peso_humedo q ->
  humidity_at p i < humidity_at q i.
Proof.
  intros Vp Vq Ex En Hw.
  destruct (humidity_at_closed p i Vp) as [Hfp ->].
  destruct (humidity_at_closed q i Vq) as [Hfq ->].
  rewrite <- Ex, <- En in *.
  set (c := 1 - (1 - exp (drying_exponent p)) * uniformity_factor (num_lineas p) i) in *.
  assert (Hc : 0 < c).
  { valid_fields Vp. apply Rmult_lt_reg_l with (peso_humedo p - 50); lra. }
  assert (Hlt : (peso_humedo p - 50) * c < (peso_humedo q - 50) * c).
  { apply Rmult_lt_compat_r; lra. }
  pose proof (wet_basis_lt _ _ Hfp Hlt). lra.
Qed.

Lemma drying_exponent_set_velocidad (p : Params) (x y : R) :
  valid_params (set_param key_velocidad_aire x p) ->
  valid_params (set_param key_velocidad_aire y p) ->
  x < y ->
  drying_exponent (set_param key_velocidad_aire y p)
  < drying_exponent (set_param key_velocidad_aire x p).
Proof.
  intros Vx Vy Hlt. valid_fields Vx. valid_fields Vy. simpl in *.
  unfold drying_exponent; simpl.
  assert (HA : 0 < py_pow (temperatura p / BASE_TEMP_C) 1.5).
  { apply py_pow_pos. unfold BASE_TEMP_C. lra. }
  assert (HB : py_pow (x / BASE_AIR_SPEED_MS) 0.8 < py_pow (y / BASE_AIR_SPEED_MS) 0.8).
  { unfold BASE_AIR_SPEED_MS. apply py_pow_lt; lra. }
  set (A := py_pow (temperatura p / _) _) in *.
  set (B1 := py_pow (x / _) _) in *. set (B2 := py_pow (y / _) _) in *.
  assert (Hk : 0 < 0.05 * tiempo_residencia p * (1 - humedad_aire p / 100)).
  { apply Rmult_lt_0_compat; lra. }
  set (k := 0.05 * tiempo_residencia p * (1 - humedad_aire p / 100)) in *.
  assert (HkA : 0 < k * A) by (apply Rmult_lt_0_compat; assumption).
  assert (Hm : k * A * B1 < k * A * B2) by (apply Rmult_lt_compat_l; assumption).
  replace (-0.05 * tiempo_residencia p * (A * B2) * (1 - humedad_aire p / 100))
    with (- (k * A * B2)) by (unfold k; lra).
  replace (-0.05 * tiempo_residencia p * (A * B1) * (1 - humedad_aire p / 100))
    with (- (k * A * B1)) by (unfold k; lra).
  lra.
Qed.

Lemma drying_exponent_set_tiempo (p : Params) (x y : R) :
  valid_params (set_param key_tiempo_residencia x p) ->
  valid_params (set_param key_tiempo_residencia y p) ->
  x < y ->
  drying_exponent (set_param key_tiempo_residencia y p)
  < drying_exponent (set_param key_tiempo_residencia x p).
Proof.
  intros Vx Vy Hlt. valid_fields Vx. valid_fields Vy. simpl in *.
  unfold drying_exponent; simpl.
  assert (HA : 0 < py_pow (temperatura p / BASE_TEMP_C) 1.5).
  { apply py_pow_pos. unfold BASE_TEMP_C. lra. }
  assert (HB : 0 < py_pow (velocidad_aire p / BASE_AIR_SPEED_MS) 0.8).
  { apply py_pow_pos. unfold BASE_AIR_SPEED_MS. lra. }
  set (A := py_pow (temperatura p / _) _) in *.
  set (B := py_pow (velocidad_aire p / _) _) in *.
  assert (HAB : 0 < A * B) by (apply Rmult_lt_0_compat; assumption).
  assert (Hk : 0 < A * B * (1 - humedad_aire p / 100)).
  { apply Rmult_lt_0_compat; lra. }
  set (k := A * B * (1 - humedad_aire p / 100)) in *.
  assert (Hm : x * k < y * k) by (apply Rmult_lt_compat_r; assumption).
  replace (-0.05 * y * (A * B) * (1 - humedad_aire p / 100))
    with (- (0.05 * (y * k))) by (unfold k; lra).
  replace (-0.05 * x * (A * B) * (1 - humedad_aire p / 100))
    with (- (0.05 * (x * k))) by (unfold k; lra).
  lra.
Qed.

Lemma drying_exponent_humedad_aire (p q : Params) :
  valid_params p -> valid_params q -> same_except_humedad_aire p q ->
  humedad_aire p < humedad_aire q ->
  drying_exponent p < drying_exponent q.
Proof.
  intros Vp Vq (Ew & _ & Et & Ev & Er & _) Hlt.
  valid_fields Vp. valid_fields Vq.
  unfold drying_exponent. rewrite <- Et, <- Ev, <- Er.
  assert (HA : 0 < py_pow (temperatura p / BASE_TEMP_C) 1.5).
  { apply py_pow_pos. unfold BASE_TEMP_C. lra. }
  assert (HB : 0 < py_pow (velocidad_aire p / BASE_AIR_SPEED_MS) 0.8).
  { apply py_pow_pos. unfold BASE_AIR_SPEED_MS. lra. }
  set (A := py_pow (temperatura p / _) _) in *.
  set (B := py_pow (velocidad_aire p / _) _) in *.
  assert (HAB : 0 < A * B) by (apply Rmult_lt_0_compat; assumption).
  assert (Hk : 0 < 0.05 * tiempo_residencia p * (A * B)).
  { apply Rmult_lt_0_compat; lra. }
  set (k := 0.05 * tiempo_residencia p * (A * B)) in *.
  assert (Hm : k * (1 - humedad_aire q / 100) < k * (1 - humedad_aire p / 100)).
  { apply Rmult_lt_compat_l; lra. }
  replace (-0.05 * tiempo_residencia p * (A * B) * (1 - humedad_aire p / 100))
    with (- (k * (1 - humedad_aire p / 100))) by (unfold k; lra).
  replace (-0.05 * tiempo_residencia p * (A * B) * (1 - humedad_aire q / 100))
    with (- (k * (1 - humedad_aire q / 100))) by (unfold k; lra).
  lra.
Qed.

Lemma num_lineas_set_param (key : variable_key) (x : R) (p : Params) :
  num_lineas (set_param key x p) = num_lineas p.
Proof.
  destruct key; reflexivity.
Qed.

(** The effect on every line of the value given to a swept key: the wet
    weight raises the moisture, the three process keys lower it. *)
Lemma humidity_at_set_param (p : Params) (key : variable_key) (x y : R) (i : Z) :
  valid_params (set_param key x p) -> valid_params (set_param key y p) ->
  x < y ->
  match key with
  | key_peso_humedo =>
      humidity_at (set_param key x p) i < humidity_at (set_param key y p) i
  | _ =>
      humidity_at (set_param key y p) i < humidity_at (set_param key x p) i
  end.
Proof.
  intros Vx Vy Hlt. destruct key.
  - apply humidity_at_temperatura; try assumption.
    apply set_temperatura_same.
  - apply humidity_at_exponent_lt; try assumption; try reflexivity.
    now apply drying_exponent_set_velocidad.
  - apply humidity_at_exponent_lt; try assumption; try reflexivity.
    now apply drying_exponent_set_tiempo.
  - apply humidity_at_peso_lt; try assumption; reflexivity.
Qed.


Lemma slider_step_pos (key : variable_key) : 0 < slider_step key.
Proof.
  destruct key; simpl; lra.
Qed.

(** Of two runs of the documented domain that differ by the value of one
    swept key, the second value at least one step of the key's slider
    above the first, the one with the larger value has, in every line,
    strictly more moisture when the key is the wet weight, and strictly
    less when it is the temperature, the air speed or the residence
    time. *)
Theorem swept_value_effect (p : Params) (key : variable_key) (x y : R) :
  valid_params (set_param key x p) -> valid_params (set_param key y p) ->
  x + slider_step key <= y ->
  exists dfx dfy,
    run_industrial_simulation (set_param key x p) = Ok dfx /\
    run_industrial_simulation (set_param key y p) = Ok dfy /\
    forall i, (0 <= i < num_lineas p)%Z ->
      match key with
      | key_peso_humedo =>
          nth (Z.to_nat i) (Humedad_Residual dfx) 0
          < nth (Z.to_nat i) (Humedad_Residual dfy) 0
      | _ =>
          nth (Z.to_nat i) (Humedad_Residual dfy) 0
          < nth (Z.to_nat i) (Humedad_Residual dfx) 0
      end.
Proof.
  intros Vx Vy Hstep.
  assert (Hlt : x < y) by (pose proof (slider_step_pos key); lra).
  exists (simulation_table (set_param key x p)),
         (simulation_table (set_param key y p)).
  rewrite !run_industrial_simulation_eq.
  split; [reflexivity |]. split; [reflexivity |].
  intros i Hi. simpl.
  rewrite !humidity_column_nth by (rewrite num_lineas_set_param; exact Hi).
  exact (humidity_at_set_param p key x y i Vx Vy Hlt).
Qed.

Lemma swept_value_effect_witness :
  exists dfx dfy,
    run_industrial_simulation (set_param key_velocidad_aire 1.0 reference_params)
      = Ok dfx /\
    run_industrial_simulation (set_param key_velocidad_aire 2.0 reference_params)
      = Ok dfy /\
    forall i, (0 <= i < 6)%Z ->
      nth (Z.to_nat i) (Humedad_Residual dfy) 0
      < nth (Z.to_nat i) (Humedad_Residual dfx) 0.
Proof.
  apply (swept_value_effect reference_params key_velocidad_aire 1.0 2.0).
  - solve_valid.
  - solve_valid.
  - simpl; lra.
Defined.

(** More humid inlet air dries less: of two runs of the documented
    domain that differ only by the relative humidity of the air, the
    second at least one step of the slider (5 %) above the first, the
    more humid one leaves strictly more moisture in every line. *)
Theorem humid_air_dries_less (p q : Params) :
  valid_params p -> valid_params q -> same_except_humedad_aire p q ->
  humedad_aire p + humedad_aire_step <= humedad_aire q ->
  exists dfp dfq,
    run_industrial_simulation p = Ok dfp /\
    run_industrial_simulation q = Ok dfq /\
    forall i, (0 <= i < num_lineas p)%Z ->
      nth (Z.to_nat i) (Humedad_Residual dfp) 0
      < nth (Z.to_nat i) (Humedad_Residual dfq) 0.
Proof.
  intros Vp Vq S Hstep.
  assert (Hlt : humedad_aire p < humedad_aire q)
    by (unfold humedad_aire_step in Hstep; lra).
  pose proof (drying_exponent_humedad_aire p q Vp Vq S Hlt) as Hexp.
  destruct S as (Ew & _ & _ & _ & _ & En).
  exists (simulation_table p), (simulation_table q).
  rewrite !run_industrial_simulation_eq.
  split; [reflexivity |]. split; [reflexivity |].
  intros i Hi. simpl.
  rewrite !humidity_column_nth by (rewrite <- ?En; exact Hi).
  apply humidity_at_exponent_lt; try assumption; now symmetry.
Qed.

Lemma humid_air_dries_less_witness :
  let q := mkParams 240 3.0 135 1.5 10 70 6 in
  exists dfp dfq,
    run_industrial_simulation reference_params = Ok dfp /\
    run_industrial_simulation q = Ok dfq /\
    forall i, (0 <= i < 6)%Z ->
      nth (Z.to_nat i) (Humedad_Residual dfp) 0
      < nth (Z.to_nat i) (Humedad_Residual dfq) 0.
Proof.
  intros q. apply (humid_air_dries_less reference_params q).
  - solve_valid.
  - unfold q. solve_valid.
  - unfold same_except_humedad_aire; simpl; repeat split.
  - unfold humedad_aire_step; simpl; lra.
Defined.

(** ** The sensitivity loop on each key *)








(** ** Errors and edge cases *)

(** With every other parameter in its documented domain,
    [calculate_kpis] raises [ZeroDivisionError] when the residence time
    is zero and returns its dictionary when it is not, whatever the
    table: its other two divisions are by 1000. *)
Theorem calculate_kpis_raises_iff (p : Params) (df : DataFrame) :
  valid_except_tiempo p ->
  (tiempo_residencia p = 0 -> calculate_kpis p df = Raise ZeroDivisionError) /\
  (tiempo_residencia p <> 0 -> exists k, calculate_kpis p df = Ok k) /\
  ((exists e, calculate_kpis p df = Raise e) <-> tiempo_residencia p = 0).
Proof.
  intros _.
  split; [now apply calculate_kpis_zero_time |].
  split.
  - intros N. destruct (calculate_kpis_returns p df N) as (k & Hk & _).
    now exists k.
  - split.
    + intros [e He]. destruct (Req_dec_T (tiempo_residencia p) 0) as [E | N];
        [exact E |].
      destruct (calculate_kpis_returns p df N) as (k & Hk & _).
      rewrite Hk in He. discriminate.
    + intros Ht. exists ZeroDivisionError. now apply calculate_kpis_zero_time.
Qed.

Lemma calculate_kpis_raises_iff_witness :
  (tiempo_residencia zero_time_params = 0 ->
   calculate_kpis zero_time_params empty_table = Raise ZeroDivisionError) /\
  (tiempo_residencia zero_time_params <> 0 ->
   exists k, calculate_kpis zero_time_params empty_table = Ok k) /\
  ((exists e, calculate_kpis zero_time_params empty_table = Raise e)
   <-> tiempo_residencia zero_time_params = 0).
Proof.
  apply (calculate_kpis_raises_iff zero_time_params empty_table).
  unfold valid_except_tiempo, zero_time_params; simpl.
  repeat split; try lra; lia.
Defined.

(** With no line to simulate ([num_lineas = 0], the other parameters in
    their documented domains) the simulation returns an empty table
    instead of failing, and the indicators of that table have NaN as
    average moisture and as evaporation rate. *)
Theorem no_lines_empty_table (p : Params) :
  valid_except_lineas p -> num_lineas p = 0%Z ->
  exists k,
    pipeline p = Ok (empty_table, k) /\
    humedad_promedio k = NaN /\ tasa_evaporacion k = NaN.
Proof.
  intros (_ & _ & _ & Ht & _) Hn.
  assert (Hr : range (num_lineas p) = []) by (rewrite Hn; reflexivity).
  assert (Htab : simulation_table p = empty_table).
  { unfold simulation_table, humidity_column. now rewrite Hr. }
  rewrite pipeline_eq, Htab.
  destruct (calculate_kpis_fields p empty_table ltac:(lra))
    as (k & Hk & Hmean & _ & Hrate & _).
  exists k. rewrite Hk. cbn [bind].
  split; [reflexivity |]. split; assumption.
Qed.

Lemma no_lines_empty_table_witness :
  exists k,
    pipeline (mkParams 240 3.0 135 1.5 10 50 0) = Ok (empty_table, k) /\
    humedad_promedio k = NaN /\ tasa_evaporacion k = NaN.
Proof.
  apply (no_lines_empty_table (mkParams 240 3.0 135 1.5 10 50 0)).
  - unfold valid_except_lineas; simpl. repeat split; lra.
  - reflexivity.
Defined.

(** Without residence time, or with saturated inlet air (100 %), nothing
    evaporates: with the other parameters in their documented domains,
    every line keeps the moisture that the product had before drying. *)
Theorem no_drying (p : Params) :
  valid_or_no_drying p ->
  tiempo_residencia p = 0 \/ humedad_aire p = 100 ->
  exists df, run_industrial_simulation p = Ok df /\
    Z.of_nat (List.length (Humedad_Residual df)) = num_lineas p /\
    Forall (fun h => h = initial_humidity p) (Humedad_Residual df).
Proof.
  intros (Hw & _ & _ & _ & _ & Hn) Hcase. exists (simulation_table p).
  split; [apply run_industrial_simulation_eq |]. simpl.
  split; [rewrite humidity_column_length; lia |].
  apply Forall_humidity_column. intros i _.
  assert (Hexp : drying_exponent p = 0).
  { unfold drying_exponent. destruct Hcase as [-> | ->]; lra. }
  unfold humidity_at, evaporated_base. rewrite Hexp, exp_0.
  replace ((peso_humedo p - DRY_WEIGHT_G) * (1 - 1)) with 0 by lra.
  rewrite line_humidity_wet by (unfold DRY_WEIGHT_G; lra).
  unfold initial_humidity, DRY_WEIGHT_G.
  replace (peso_humedo p - 50.0 - 0 * uniformity_factor (num_lineas p) i)
    with (peso_humedo p - 50.0) by lra.
  replace (peso_humedo p - 50.0 + 50.0) with (peso_humedo p - 50.0 + 50) by lra.
  reflexivity.
Qed.

Lemma no_drying_witness :
  exists df, run_industrial_simulation zero_time_params = Ok df /\
    Z.of_nat (List.length (Humedad_Residual df)) = 6%Z /\
    Forall (fun h => h = initial_humidity zero_time_params) (Humedad_Residual df).
Proof.
  apply (no_drying zero_time_params).
  - unfold valid_or_no_drying, zero_time_params; simpl.
    repeat split; try lra; lia.
  - left; reflexivity.
Defined.

(** ** The labels of the lines *)

Lemma label_number (s : string) :
  substring 7 (String.length ("Línea " ++ s) - 7) ("Línea " ++ s)%string = s.
Proof.
  cbn -[Nat.sub substring].
  replace (S (S (S (S (S (S (S (String.length s))))))) - 7)%nat
    with (String.length s) by lia.
  cbn. induction s as [| c s IH]; [reflexivity |].
  cbn. now rewrite IH.
Qed.

Lemma nombre_linea_inj (i j : Z) : nombre_linea i = nombre_linea j -> i = j.
Proof.
  unfold nombre_linea. intros H.
  apply (f_equal (fun s => substring 7 (String.length s - 7) s)) in H.
  rewrite !label_number in H.
  apply (f_equal NilEmpty.int_of_string) in H.
  rewrite !NilEmpty.isi in H. injection H as H.
  apply DecimalZ.to_int_inj in H. lia.
Qed.

Lemma NoDup_map_injective {A B : Type} (f : A -> B) (l : list A) :
  (forall x y, f x = f y -> x = y) -> NoDup l -> NoDup (map f l).
Proof.
  intros Hinj Hnd. induction Hnd as [| a l Hnotin Hnd IH]; simpl; constructor.
  - rewrite in_map_iff. intros (y & E & Hy). apply Hinj in E. now subst.
  - exact IH.
Qed.

(** The labels of the table: on the documented domain there is one label
    per moisture value, no label occurs twice, and the label of line [i]
    reads back as its rank: what follows the seven bytes of ["Línea "],
    parsed as a decimal number, is [i + 1]. *)
Theorem line_labels (p : Params) :
  valid_params p ->
  exists df, run_industrial_simulation p = Ok df /\
    List.length (Linea df) = List.length (Humedad_Residual df) /\
    NoDup (Linea df) /\
    forall i, (0 <= i < num_lineas p)%Z ->
      let label := nth (Z.to_nat i) (Linea df) ""%string in
      substring 0 7 label = "Línea "%string /\
      option_map Z.of_int
        (NilEmpty.int_of_string (substring 7 (String.length label - 7) label))
      = Some (i + 1)%Z.
Proof.
  intros _. exists (simulation_table p).
  split; [apply run_industrial_simulation_eq |]. simpl.
  split; [now rewrite humidity_column_length, length_map, range_length |].
  split.
  - apply NoDup_map_injective; [exact nombre_linea_inj |].
    unfold range. apply NoDup_map_injective; [| apply seq_NoDup].
    intros a b. apply Nat2Z.inj.
  - intros i Hi. rewrite nth_map_range by exact Hi.
    unfold nombre_linea. split.
    { cbn. now destruct (NilEmpty.string_of_int (Z.to_int (i + 1))). }
    rewrite label_number, NilEmpty.isi. simpl.
    now rewrite DecimalZ.of_to.
Qed.

Lemma line_labels_witness :
  exists df, run_industrial_simulation reference_params = Ok df /\
    List.length (Linea df) = List.length (Humedad_Residual df) /\
    NoDup (Linea df) /\
    forall i, (0 <= i < 6)%Z ->
      let label := nth (Z.to_nat i) (Linea df) ""%string in
      substring 0 7 label = "Línea "%string /\
      option_map Z.of_int
        (NilEmpty.int_of_string (substring 7 (String.length label - 7) label))
      = Some (i + 1)%Z.
Proof.
  apply (line_labels reference_params). solve_valid.
Defined.

(** ** The energy cost *)

Lemma cube_lt (x y : R) : 0 < x -> x < y -> x ^ 3 < y ^ 3.
Proof.
  intros Hx Hlt. simpl.
  assert (H2 : x * x < y * y) by nra.
  assert (H3 : x * (x * x) < y * (y * y)) by nra.
  lra.
Qed.

(** The energy cost is decided by the temperature, the air speed and the
    number of lines alone: of two parameter sets of the documented
    domain that differ by the value of one swept key, the second value
    at least one step of the key's slider above the first, whatever the
    tables, the cost is strictly higher for the higher temperature or
    air speed, and the same for two wet weights or two residence
    times. *)
Theorem energy_cost_of_swept_key (p : Params) (key : variable_key) (x y : R)
  (dfx dfy : DataFrame) :
  valid_params (set_param key x p) -> valid_params (set_param key y p) ->
  x + slider_step key <= y ->
  exists kx ky,
    calculate_kpis (set_param key x p) dfx = Ok kx /\
    calculate_kpis (set_param key y p) dfy = Ok ky /\
    match key with
    | key_temperatura | key_velocidad_aire =>
        costo_energetico kx < costo_energetico ky
    | _ => costo_energetico kx = costo_energetico ky
    end.
Proof.
  intros Vx Vy Hstep.
  assert (Hlt : x < y) by (pose proof (slider_step_pos key); lra).
  destruct (calculate_kpis_fields (set_param key x p) dfx)
    as (kx & Hkx & _ & Hcx & _).
  { valid_fields Vx. lra. }
  destruct (calculate_kpis_fields (set_param key y p) dfy)
    as (ky & Hky & _ & Hcy & _).
  { valid_fields Vy. lra. }
  exists kx, ky. split; [exact Hkx |]. split; [exact Hky |].
  rewrite Hcx, Hcy. valid_fields Vx. valid_fields Vy.
  rewrite !num_lineas_set_param in *.
  assert (Hn : 2 <= IZR (num_lineas p)) by (apply IZR_le; lia).
  destruct key; simpl in *; try reflexivity.
  - assert (Hvn : 0 < velocidad_aire p * IZR (num_lineas p))
      by (apply Rmult_lt_0_compat; lra).
    assert (H : velocidad_aire p * IZR (num_lineas p) * (x - 25)
                < velocidad_aire p * IZR (num_lineas p) * (y - 25))
      by (apply Rmult_lt_compat_l; lra).
    lra.
  - assert (Hc : x * (x * (x * 1)) < y * (y * (y * 1))).
    { pose proof (cube_lt x y ltac:(lra) Hlt) as H. simpl in H. exact H. }
    assert (Hnt : 0 < IZR (num_lineas p) * (temperatura p - 25))
      by (apply Rmult_lt_0_compat; lra).
    assert (H1 : x * (IZR (num_lineas p) * (temperatura p - 25))
                 < y * (IZR (num_lineas p) * (temperatura p - 25)))
      by (apply Rmult_lt_compat_r; lra).
    assert (H2 : x * (x * (x * 1)) * IZR (num_lineas p)
                 < y * (y * (y * 1)) * IZR (num_lineas p))
      by (apply Rmult_lt_compat_r; lra).
    lra.
Qed.

Lemma energy_cost_of_swept_key_witness :
  exists kx ky,
    calculate_kpis (set_param key_temperatura 100 reference_params) empty_table
      = Ok kx /\
    calculate_kpis (set_param key_temperatura 150 reference_params)
                   (simulation_table reference_params) = Ok ky /\
    costo_energetico kx < costo_energetico ky.
Proof.
  apply (energy_cost_of_swept_key reference_params key_temperatura 100 150).
  - solve_valid.
  - solve_valid.
  - simpl; lra.
Defined.

(** ** Two runs at close temperatures *)

(** C3, as stated, fails.  At 100 degrees and at the next binary64
    number above 100, two temperatures of the documented domain, the
    quotient [temperatura / 90.0] is the same float; the temperature is
    read nowhere else, so whatever the C library returns for [**] and
    [np.exp] the two runs give the same outcome, and with it the same
    average, where the claim wants a strictly smaller one.  That average
    is not at the floor: in exact arithmetic the run at 100 degrees has
    every line above 0 and the first above 31 %. *)
Lemma adjacent_temperatures_same_table :
  Binary64.valid_params Binary64.at_100 = true /\
  Binary64.valid_params Binary64.above_100 = true /\
  (Binary64.temperatura Binary64.at_100
   <? Binary64.temperatura Binary64.above_100)%float = true /\
  (forall float_pow np_exp,
     Binary64.run_industrial_simulation float_pow np_exp Binary64.above_100
     = Binary64.run_industrial_simulation float_pow np_exp Binary64.at_100) /\
  (exists df,
     run_industrial_simulation (mkParams 240 3.0 100 1.5 10 50 6) = Ok df /\
     Forall (fun h => 0 < h) (Humedad_Residual df) /\
     nth 0 (Humedad_Residual df) 0 > 31).
Proof.
  split; [vm_compute; reflexivity |].
  split; [vm_compute; reflexivity |].
  split; [vm_compute; reflexivity |].
  split.
  - intros float_pow np_exp. unfold Binary64.run_industrial_simulation.
    cbn [Binary64.temperatura Binary64.above_100 Binary64.at_100
         Binary64.peso_humedo Binary64.velocidad_aire
         Binary64.tiempo_residencia Binary64.humedad_aire Binary64.num_lineas].
    assert (E : (next_up 100 / Binary64.BASE_TEMP_C)%float
                = (100 / Binary64.BASE_TEMP_C)%float)
      by (vm_compute; reflexivity).
    rewrite E. reflexivity.
  - set (p := mkParams 240 3.0 100 1.5 10 50 6).
    assert (V : valid_params p) by (unfold p; solve_valid).
    exists (simulation_table p).
    split; [apply run_industrial_simulation_eq |].
    cbn [simulation_table Humedad_Residual].
    split.
    + unfold humidity_column. apply Forall_forall. intros h Hh.
      apply in_map_iff in Hh. destruct Hh as [i [<- _]].
      now apply humidity_at_pos.
    + change 0%nat with (Z.to_nat 0).
      rewrite humidity_column_nth by (unfold p; simpl; lia).
      now apply edge_line_above_31.
Qed.

(** C3, amended: of two parameter sets of the documented domain that
    differ only by their temperature, the second at least one degree
    above the first, the hotter one has the strictly smaller average
    residual moisture.  (The floor 0 is not reached on the domain.) *)
Theorem hotter_by_a_degree_lowers_average (p q : Params) :
  valid_params p -> valid_params q -> same_except_temperatura p q ->
  peso_humedo p > 50 ->
  temperatura p + 1 <= temperatura q ->
  exists dfp dfq a b,
    run_industrial_simulation p = Ok dfp /\
    run_industrial_simulation q = Ok dfq /\
    series_mean (Humedad_Residual dfp) = Num a /\
    series_mean (Humedad_Residual dfq) = Num b /\
    0 < b < a.
Proof.
  intros Vp Vq S _ Hlt.
  destruct (mean_temperatura p q Vp Vq S ltac:(lra)) as (b & a & Hb & Ha & Hba).
  exists (simulation_table p), (simulation_table q), a, b.
  rewrite !run_industrial_simulation_eq. simpl.
  repeat split; try assumption.
  destruct (series_mean_bounds 0 (initial_humidity q) (humidity_column q))
    as (b' & Hb' & Hpos & _).
  - unfold humidity_column. apply Forall_forall. intros h Hh.
    apply in_map_iff in Hh. destruct Hh as [i [<- _]].
    split; [now apply humidity_at_pos | now apply humidity_at_below_initial].
  - apply humidity_column_nonempty. valid_fields Vq. lia.
  - rewrite Hb in Hb'. injection Hb' as <-. exact Hpos.
Qed.

Lemma hotter_by_a_degree_lowers_average_witness :
  exists dfp dfq a b,
    run_industrial_simulation reference_params = Ok dfp /\
    run_industrial_simulation (mkParams 240 3.0 140 1.5 10 50 6) = Ok dfq /\
    series_mean (Humedad_Residual dfp) = Num a /\
    series_mean (Humedad_Residual dfq) = Num b /\
    0 < b < a.
Proof.
  apply (hotter_by_a_degree_lowers_average reference_params
           (mkParams 240 3.0 140 1.5 10 50 6)).
  - solve_valid.
  - solve_valid.
  - unfold same_except_temperatura; simpl; repeat split.
  - simpl; lra.
  - simpl; lra.
Defined.
